(** * domo-phoenix: the chart facade of [src/chart/chart.ts]

    A shallow embedding of the [PhoenixChart] class: the row normaliser
    ([transformData] and the guard around it), the configuration builder
    ([_toPhoenixConfig], [_createPalette], [_createConfigString]), the
    constructor and the session methods ([render], [resize], [update],
    [setChartProperties], [resetColorPalette], [getPacket]), followed by the
    properties of the specification that concern them and by further
    properties of the code. *)

From Stdlib Require Import List String Ascii ZArith NArith Bool Arith Lia.
From Stdlib Require Import DecimalString Permutation Sorted.
Import ListNotations.

Local Open Scope list_scope.
Local Open Scope string_scope.

#[local] Set Warnings "-register-all".

(** ** JavaScript data *)

(** The values the facade handles are plain data.  A string is its sequence
    of code units (those below 256 are what [string] carries), [JNum n] is
    the Number that the integer literal [n] denotes, an array is dense, and
    an object is a plain object, given by the list of its own enumerable
    string-keyed data properties in the order they were inserted, each key
    occurring once.  A plain object inherits [hasOwnProperty] from
    [Object.prototype] unless one of its own keys has that name. *)
Inductive JsVal : Type :=
| JUndefined
| JNull
| JBool (b : bool)
| JNum (n : Z)
| JStr (s : string)
| JArr (elems : list JsVal)
| JObj (props : list (string * JsVal)).

(** What a statement completes with: a value, or a thrown [TypeError]. *)
Inductive JsError : Type :=
| TypeError (message : string).

Inductive completion (A : Type) : Type :=
| Normal (a : A)
| Throw (e : JsError).

Arguments Normal {A} a.
Arguments Throw {A} e.

(** [Array.isArray(v)]. *)
Definition Array_isArray (v : JsVal) : bool :=
  match v with
  | JArr _ => true
  | _ => false
  end.

(** [ToBoolean(v)], the truth value [!v] and [if (v)] go by. *)
Definition ToBoolean (v : JsVal) : bool :=
  match v with
  | JUndefined => false
  | JNull => false
  | JBool b => b
  | JNum n => negb (n =? 0)%Z
  | JStr s => negb (String.eqb s EmptyString)
  | JArr _ => true
  | JObj _ => true
  end.

(** [a[i]] on an array: [undefined] past the end. *)
Definition array_get (a : list JsVal) (i : nat) : JsVal :=
  nth i a JUndefined.

(** [s.substring(start)]: the code units from [start] on, all of them dropped
    when [start] is past the end. *)
Fixpoint String_substring (start : nat) (s : string) : string :=
  match start, s with
  | O, _ => s
  | S _, EmptyString => EmptyString
  | S k, String _ rest => String_substring k rest
  end.

(** [a.map((x, index) => f(x, index))], the callback receiving the position. *)
Fixpoint Array_map_from {A B : Type} (f : A -> nat -> B) (index : nat)
  (a : list A) : list B :=
  match a with
  | [] => []
  | x :: rest => f x index :: Array_map_from f (S index) rest
  end.

Definition Array_map_indexed {A B : Type} (f : A -> nat -> B) (a : list A)
  : list B :=
  Array_map_from f 0 a.

(** *** Own property keys *)

Definition is_digit (c : ascii) : bool :=
  (48 <=? nat_of_ascii c)%nat && (nat_of_ascii c <=? 57)%nat.

(** Value of a string of decimal digits, most significant first. *)
Fixpoint digits_value (s : string) (acc : N) : option N :=
  match s with
  | EmptyString => Some acc
  | String c rest =>
      if is_digit c
      then digits_value rest (10 * acc + N.of_nat (nat_of_ascii c - 48))%N
      else None
  end.

(** A key is an array index when it is the canonical decimal numeral of an
    integer in [0, 2^32 - 2]: digits only, no leading zero except for "0". *)
Definition array_index_of (key : string) : option N :=
  match key with
  | EmptyString => None
  | String c rest =>
      if (nat_of_ascii c =? 48)%nat && negb (String.eqb rest EmptyString)
      then None
      else
        match digits_value key 0 with
        | Some n => if (n <? 4294967295)%N then Some n else None
        | None => None
        end
  end.

Definition is_array_index (key : string) : bool :=
  match array_index_of key with
  | Some _ => true
  | None => false
  end.

Definition index_rank {V : Type} (p : string * V) : N :=
  match array_index_of (fst p) with
  | Some n => n
  | None => 0%N
  end.

Fixpoint insert_by_index {V : Type} (p : string * V)
  (sorted : list (string * V)) : list (string * V) :=
  match sorted with
  | [] => [p]
  | q :: rest =>
      if (index_rank p <=? index_rank q)%N
      then p :: q :: rest
      else q :: insert_by_index p rest
  end.

Fixpoint sort_by_index {V : Type} (ps : list (string * V))
  : list (string * V) :=
  match ps with
  | [] => []
  | p :: rest => insert_by_index p (sort_by_index rest)
  end.

(** The order in which [for ... in] and [JSON.stringify] visit the own
    properties of an object: the array-index keys in ascending numeric order,
    then the other keys in insertion order. *)
Definition own_properties_in_order {V : Type} (props : list (string * V))
  : list (string * V) :=
  (sort_by_index (filter (fun p => is_array_index (fst p)) props)
   ++ filter (fun p => negb (is_array_index (fst p))) props)%list.

(** Property read [o.key] / [o[key]] on an object: [undefined] when absent. *)
Fixpoint get_own (key : string) (props : list (string * JsVal)) : JsVal :=
  match props with
  | [] => JUndefined
  | (k, v) :: rest => if String.eqb k key then v else get_own key rest
  end.

Definition has_own (key : string) (props : list (string * JsVal)) : bool :=
  existsb (fun p => String.eqb (fst p) key) props.

Definition prop (key : string) (v : JsVal) : JsVal :=
  match v with
  | JObj props => get_own key props
  | _ => JUndefined
  end.

Definition hasOwnProperty (key : string) (v : JsVal) : bool :=
  match v with
  | JObj props => has_own key props
  | _ => false
  end.

Definition elem (i : nat) (v : JsVal) : JsVal :=
  match v with
  | JArr a => array_get a i
  | _ => JUndefined
  end.

(** [delete o.key]. *)
Definition delete_own (key : string) (props : list (string * JsVal))
  : list (string * JsVal) :=
  filter (fun p => negb (String.eqb (fst p) key)) props.

(** [o.key = v]: the value is replaced in place when the key exists, and the
    key is added last otherwise. *)
Fixpoint set_own (key : string) (v : JsVal) (props : list (string * JsVal))
  : list (string * JsVal) :=
  match props with
  | [] => [(key, v)]
  | (k, w) :: rest =>
      if String.eqb k key then (k, v) :: rest else (k, w) :: set_own key v rest
  end.

(** Deletion one level down, as in [delete config.components.map]. *)
Definition delete_prop (key : string) (o : JsVal) : JsVal :=
  match o with
  | JObj props => JObj (delete_own key props)
  | other => other
  end.

(** *** JSON.stringify *)

Definition hex_digit (n : nat) : ascii :=
  nth n (list_ascii_of_string "0123456789abcdef") "0"%char.

Definition double_quote : string := String "034"%char EmptyString.
Definition backslash : string := String "092"%char EmptyString.

(** One code unit inside a quoted JSON string. *)
Definition QuoteJSONChar (c : ascii) : string :=
  let n := nat_of_ascii c in
  if (n =? 8)%nat then backslash ++ "b"
  else if (n =? 9)%nat then backslash ++ "t"
  else if (n =? 10)%nat then backslash ++ "n"
  else if (n =? 12)%nat then backslash ++ "f"
  else if (n =? 13)%nat then backslash ++ "r"
  else if (n =? 34)%nat then backslash ++ double_quote
  else if (n =? 92)%nat then backslash ++ backslash
  else if (n <? 32)%nat
       then backslash ++ "u00"
            ++ String (hex_digit (n / 16)) (String (hex_digit (n mod 16)) "")
  else String c "".

Fixpoint QuoteJSONBody (s : string) : string :=
  match s with
  | EmptyString => EmptyString
  | String c rest => QuoteJSONChar c ++ QuoteJSONBody rest
  end.

Definition QuoteJSONString (s : string) : string :=
  double_quote ++ QuoteJSONBody s ++ double_quote.

(** The Number a non-negative integer literal denotes: the integer itself
    below 2^53, beyond that the nearest integer with a significand of 53
    bits, a tie going to the even significand. *)
Definition Number_of_literal (x : Z) : Z :=
  if (x <? 2 ^ 53)%Z then x
  else
    let shift := (Z.log2 x - 52)%Z in
    let q := Z.shiftr x shift in
    let r := (x - Z.shiftl q shift)%Z in
    let half := Z.shiftl 1 (shift - 1) in
    let q' := if (half <? r)%Z || ((r =? half)%Z && Z.odd q)
              then (q + 1)%Z else q in
    Z.shiftl q' shift.

(** From 2^1024 on the Number is an infinity. *)
Definition Number_isFinite (n : Z) : bool :=
  (Number_of_literal (Z.abs n) <? 2 ^ 1024)%Z.

Definition decimal_numeral (x : Z) : string :=
  NilZero.string_of_int (Z.to_int x).

(** The multiples of [10 ^ (D - k)] next to [v] that denote the Number [v],
    the closer one when both do: the decimals of [k] significant digits that
    read back as [v]. *)
Definition candidate (v : Z) (D k : nat) : option Z :=
  let scale := (10 ^ Z.of_nat (D - k))%Z in
  let lo := (v / scale * scale)%Z in
  let hi := (lo + scale)%Z in
  match (Number_of_literal lo =? v)%Z, (Number_of_literal hi =? v)%Z with
  | true, true => Some (if (v - lo <=? hi - v)%Z then lo else hi)
  | true, false => Some lo
  | false, true => Some hi
  | false, false => None
  end.

Fixpoint shortest_from (v : Z) (D k fuel : nat) : Z :=
  match fuel with
  | O => v
  | S fuel' =>
      match candidate v D k with
      | Some x => x
      | None => shortest_from v D (S k) fuel'
      end
  end.

(** The decimal with the fewest significant digits that reads back as the
    Number [v]; seventeen digits always suffice. *)
Definition shortest_decimal (v : Z) : Z :=
  shortest_from v (String.length (decimal_numeral v)) 1 17.

Fixpoint strip_trailing_zeros (s : string) : string :=
  match s with
  | EmptyString => EmptyString
  | String c rest =>
      match strip_trailing_zeros rest with
      | EmptyString => if (nat_of_ascii c =? 48)%nat then EmptyString
                       else String c EmptyString
      | kept => String c kept
      end
  end.

(** Up to twenty-one digits an integer is written in full, beyond that as
    [d.ddde+x]. *)
Definition format_decimal (x : Z) : string :=
  let numeral := decimal_numeral x in
  if (String.length numeral <=? 21)%nat then numeral
  else
    match strip_trailing_zeros numeral with
    | EmptyString => numeral
    | String d EmptyString =>
        String d "e+" ++ decimal_numeral (Z.of_nat (String.length numeral - 1))
    | String d more =>
        String d ("." ++ more) ++ "e+"
        ++ decimal_numeral (Z.of_nat (String.length numeral - 1))
    end.

(** [Number.prototype.toString] on a finite integer Number. *)
Definition Number_toString (n : Z) : string :=
  if (n <? 0)%Z
  then "-" ++ format_decimal (shortest_decimal (Number_of_literal (- n)))
  else format_decimal (shortest_decimal (Number_of_literal n)).

Fixpoint join_comma (parts : list string) : string :=
  match parts with
  | [] => ""
  | [p] => p
  | p :: rest => p ++ "," ++ join_comma rest
  end.

(** A member of a serialized object; a property whose value is [undefined]
    produces none. *)
Definition member_text (p : string * option string) : list string :=
  match snd p with
  | Some text => [QuoteJSONString (fst p) ++ ":" ++ text]
  | None => []
  end.

(** The text of a value, [None] standing for the [undefined] that
    [JSON.stringify] answers for [undefined].  In an array [undefined] is
    written [null]; in an object the property is left out; an infinite
    number is written [null]. *)
Fixpoint SerializeJSONProperty (v : JsVal) : option string :=
  match v with
  | JUndefined => None
  | JNull => Some "null"
  | JBool b => Some (if b then "true" else "false")
  | JNum n => Some (if Number_isFinite n then Number_toString n else "null")
  | JStr s => Some (QuoteJSONString s)
  | JArr elems =>
      Some ("[" ++ join_comma
                     (map (fun x => match SerializeJSONProperty x with
                                    | Some text => text
                                    | None => "null"
                                    end) elems)
            ++ "]")
  | JObj props =>
      Some ("{" ++ join_comma
                     (flat_map member_text
                        (own_properties_in_order
                           (map (fun p => (fst p, SerializeJSONProperty (snd p)))
                              props)))
            ++ "}")
  end.

(** [JSON.stringify(o)] for an object [o], which always has a text. *)
Definition JSON_stringify (o : list (string * JsVal)) : string :=
  "{" ++ join_comma
           (flat_map member_text
              (own_properties_in_order
                 (map (fun p => (fst p, SerializeJSONProperty (snd p))) o)))
  ++ "}".

(** ** The collaborators of the facade *)

(** The chart-kind enum [PHOENIX_CHART_TYPE] and the two helpers imported from
    [./map-utils] are not part of [chart.ts]; the facade is parametric in
    them.  [chart_type_value] is the runtime value of an enum tag, which is
    what [badgetype] carries. *)
Class ChartTypes : Type := {
  PHOENIX_CHART_TYPE : Type;
  chart_type_value : PHOENIX_CHART_TYPE -> JsVal;
  _isMap : PHOENIX_CHART_TYPE -> bool;
  _getMapDefinition : PHOENIX_CHART_TYPE -> JsVal
}.

(** Modelled from the spec: the chart-kind enum and the map lookup are missing
    from the sources.  "A fixed subset of tags are classified as map kinds,
    the remainder are graph kinds", and the lookup "given a map chart-type,
    returns a static map definition payload".  Three tags, one of them a map
    kind, are enough to run the facade on examples. *)
Inductive SampleChartType : Type :=
| BAR
| LINE
| MAP_USA.

#[export] Instance sample_chart_types : ChartTypes := {
  PHOENIX_CHART_TYPE := SampleChartType;
  chart_type_value := fun t =>
    match t with
    | BAR => JStr "badge_vert_bar"
    | LINE => JStr "badge_line"
    | MAP_USA => JStr "badge_map"
    end;
  _isMap := fun t =>
    match t with
    | MAP_USA => true
    | _ => false
    end;
  _getMapDefinition := fun t =>
    match t with
    | MAP_USA => JObj [("map", JObj [("name", JStr "usa")])]
    | _ => JUndefined
    end
}.

(** The call interface of the rendering engine, as the facade uses it.  The
    engine is external: a session records the calls it makes on its handle,
    oldest first. *)
Inductive PhoenixCall : Type :=
| createPhoenixWithChartState (configString stateString : string)
    (width height : JsVal) (useDefaults : bool) (flag : Z)
| setUsePhoenixHover (on : bool)
| getCanvas
| draw (skipAnimation : bool) (flag : bool)
| resize_call (width height : Z)
| updateChartJson (configString : string) (skipAnimation : bool).

(** ** Data and options *)

Record ColumnDescriptor : Type := {
  type : JsVal;
  name : string;
  mapping : string
}.

(** [rows] is an array by its declared type, so [Array.isArray(data.rows)]
    holds; its elements are arbitrary values. *)
Record PhoenixChartData : Type := {
  columns : list ColumnDescriptor;
  rows : list JsVal
}.

Definition PropertyOverridesMap : Type := list (string * JsVal).

(** An options object.  For [height], [width] and [animate], [None] is a
    missing key and [Some v] a key holding [v], which may be [undefined] or
    [null].  [colors] and [properties] are only ever tested for truth and
    copied, which does not tell a missing key from one holding [undefined]
    or [null]: [None] stands for all three, [Some] for the array or the
    map. *)
Record PhoenixChartOptions : Type := {
  height : option JsVal;
  width : option JsVal;
  animate : option JsVal;
  colors : option (list string);
  properties : option PropertyOverridesMap
}.

Definition DEFAULT_OPTIONS : PhoenixChartOptions := {|
  height := Some (JNum 400);
  width := Some (JNum 500);
  animate := Some (JBool true);
  colors := None;
  properties := None
|}.

(** [o.key] for a key that may be missing. *)
Definition read (field : option JsVal) : JsVal :=
  match field with
  | Some v => v
  | None => JUndefined
  end.

Definition or_else {A : Type} (over base : option A) : option A :=
  match over with
  | Some a => Some a
  | None => base
  end.

(** [{ ...DEFAULT_OPTIONS, ...options }] (line 40): every key of [options]
    goes over the default, whatever it holds, and spreading [undefined] adds
    nothing.  The defaults have [colors: null] and no [properties], so these
    two are as [options] has them. *)
Definition spread_over_defaults (options : option PhoenixChartOptions)
  : PhoenixChartOptions :=
  match options with
  | None => DEFAULT_OPTIONS
  | Some o => {|
      height := or_else (height o) (height DEFAULT_OPTIONS);
      width := or_else (width o) (width DEFAULT_OPTIONS);
      animate := or_else (animate o) (animate DEFAULT_OPTIONS);
      colors := colors o;
      properties := properties o
    |}
  end.

Definition with_colors (c : option (list string)) (o : PhoenixChartOptions)
  : PhoenixChartOptions :=
  {| height := height o; width := width o; animate := animate o;
     colors := c; properties := properties o |}.

Definition with_properties (p : option PropertyOverridesMap)
  (o : PhoenixChartOptions) : PhoenixChartOptions :=
  {| height := height o; width := width o; animate := animate o;
     colors := colors o; properties := p |}.

Definition with_rows (r : list JsVal) (d : PhoenixChartData)
  : PhoenixChartData :=
  {| columns := columns d; rows := r |}.

(** [!options.animate]. *)
Definition not_animate (o : PhoenixChartOptions) : bool :=
  negb (ToBoolean (read (animate o))).

(** ** Row normalisation *)

(** The properties [for (const key in row)] visits, in order.  An array has
    its elements under its indices, a string its code units under their
    positions; [null], [undefined], numbers and booleans have none.  What a
    plain object, an array or a string inherits is not enumerable. *)
Definition visited_values (row : JsVal) : list JsVal :=
  match row with
  | JObj props => map snd (own_properties_in_order props)
  | JArr elems => elems
  | JStr s => map (fun c => JStr (String c EmptyString)) (list_ascii_of_string s)
  | _ => []
  end.

(** Whether [row.hasOwnProperty] is a data property of the row itself
    rather than the inherited method. *)
Definition shadows_hasOwnProperty (row : JsVal) : bool :=
  hasOwnProperty "hasOwnProperty" row.

(** The body of the callback of [transformData].  Without a property to visit
    the loop body does not run.  Otherwise its first statement calls
    [row.hasOwnProperty(key)]: this throws when the row has an own key of
    that name, whose value is data and not a function; when the method is
    the inherited one the test passes for every visited key, all of them
    being own, and each value is pushed. *)
Definition own_values (row : JsVal) : completion (list JsVal) :=
  match visited_values row with
  | [] => Normal []
  | values =>
      if shadows_hasOwnProperty row
      then Throw (TypeError "row.hasOwnProperty is not a function")
      else Normal values
  end.

(** [rows.map(row => ...)]: the rows in order, nothing returned once a
    callback has thrown. *)
Fixpoint transformData (rows : list JsVal) : completion (list JsVal) :=
  match rows with
  | [] => Normal []
  | row :: rest =>
      match own_values row with
      | Throw e => Throw e
      | Normal newRow =>
          match transformData rest with
          | Throw e => Throw e
          | Normal newRows => Normal (JArr newRow :: newRows)
          end
      end
  end.

(** The guard of the constructor (lines 34-39) and of [update] (lines 73-78):
    [if (!Array.isArray(data.rows[0])) data.rows = transformData(data.rows)],
    an assignment into the caller's object, which does not take place when
    [transformData] throws. *)
Definition normalize_rows (rows : list JsVal) : completion (list JsVal) :=
  if negb (Array_isArray (array_get rows 0))
  then transformData rows
  else Normal rows.

Definition normalize (data : PhoenixChartData) : completion PhoenixChartData :=
  if negb (Array_isArray (array_get (rows data) 0))
  then match transformData (rows data) with
       | Normal newRows => Normal (with_rows newRows data)
       | Throw e => Throw e
       end
  else Normal data.

(** What the specification's data model asks of normalisation: one value per
    declared column, in column order, looked up by column name. *)
Definition rows_by_columns (cols : list ColumnDescriptor) (rows : list JsVal)
  : list JsVal :=
  map (fun row => JArr (map (fun col => prop (name col) row) cols)) rows.

(** The keys of a row in the order its own properties are visited. *)
Definition keys_in_order (row : JsVal) : list string :=
  match row with
  | JObj props => map fst (own_properties_in_order props)
  | _ => []
  end.

Definition is_keyed_mapping (row : JsVal) : bool :=
  match row with
  | JObj _ => true
  | _ => false
  end.

(** The own values of a row in insertion order: for a keyed mapping the
    values as its keys were inserted; the elements of an array and the code
    units of a string come into being in position order. *)
Definition insertion_order_values (row : JsVal) : list JsVal :=
  match row with
  | JObj props => map snd props
  | JArr elems => elems
  | JStr s => map (fun c => JStr (String c EmptyString)) (list_ascii_of_string s)
  | _ => []
  end.

(** ** The configuration builder and the session *)

Section Chart.

Context `{CT : ChartTypes}.

(** The configuration document is an object, held as its property list. *)
Definition PhoenixChartConfig : Type := list (string * JsVal).

Definition _createPalette (colors : list string) : JsVal :=
  JObj [
    ("colorRanges", JArr [
      JObj [
        ("name", JStr "CustomPalette");
        ("values", JArr (map (fun color => JStr (String_substring 1 color)) colors))
      ]
    ]);
    ("colorRules", JArr [
      JObj [
        ("min", JNum 1);
        ("max", JNum (Z.of_nat (List.length colors)));
        ("values",
         JArr (Array_map_indexed
                 (fun _color index => JArr [JNum 0; JNum (Z.of_nat index)])
                 colors))
      ]
    ])
  ].

(** [delete config.components.key]. *)
Definition delete_component (key : string) (config : PhoenixChartConfig)
  : PhoenixChartConfig :=
  set_own "components" (delete_prop key (get_own "components" config)) config.

(** [options] is declared optional.  The branch of [components] that is
    taken reads [options.properties], so an [undefined] argument throws
    before a document exists. *)
Definition _toPhoenixConfig (chart_type : PHOENIX_CHART_TYPE)
  (data : PhoenixChartData) (options : option PhoenixChartOptions)
  : completion PhoenixChartConfig :=
  match options with
  | None => Throw (TypeError "options is undefined")
  | Some options =>
      let overrides :=
        match properties options with
        | Some p => JObj p
        | None => JObj []
        end in
      let config : PhoenixChartConfig := [
        ("datasources", JObj [
          ("default", JObj [
            ("type", JStr "ordered-column-list");
            ("data", JObj [
              ("datasource", JStr "default");
              ("metadata",
               JArr (map (fun col => JObj [("type", type col)]) (columns data)));
              ("mappings", JArr (map (fun col => JStr (mapping col)) (columns data)));
              ("columns", JArr (map (fun col => JStr (name col)) (columns data)));
              ("rows", JArr (rows data));
              ("numRows", JNum (Z.of_nat (List.length (rows data))));
              ("numColumns", JNum (Z.of_nat (List.length (columns data))))
            ])
          ])
        ]);
        ("components", JObj [
          ("graph",
           if negb (_isMap chart_type)
           then JObj [
                  ("type", JStr "graph");
                  ("badgetype", chart_type_value chart_type);
                  ("datasource", JStr "default");
                  ("columnFormats", JObj []);
                  ("overrides", overrides)
                ]
           else JNull);
          ("map",
           if _isMap chart_type
           then JObj [
                  ("type", JStr "map");
                  ("badgetype", chart_type_value chart_type);
                  ("mapdef", JStr "map");
                  ("datasource", JStr "default");
                  ("columnFormats", JObj []);
                  ("overrides", overrides)
                ]
           else JNull)
        ]);
        ("maps", if _isMap chart_type then _getMapDefinition chart_type else JNull);
        ("conditionalFormats", JArr []);
        ("locale", JStr "en-US");
        ("version", JStr "6")
      ] in
      let config :=
        if _isMap chart_type
        then delete_component "graph" config
        else delete_component "map" (delete_own "maps" config) in
      let config :=
        match colors options with
        | Some c => set_own "palette" (_createPalette c) config
        | None => config
        end in
      Normal config
  end.

Definition _createConfigString (chart_type : PHOENIX_CHART_TYPE)
  (data : PhoenixChartData) (options : option PhoenixChartOptions)
  : completion string :=
  match _toPhoenixConfig chart_type data options with
  | Normal chartConfig => Normal (JSON_stringify chartConfig)
  | Throw e => Throw e
  end.

(** A live session: the fields of the class.  [_data] is the caller's own
    object, which the session keeps and normalises in place; [_instance] is
    the engine handle, held as the calls made on it. *)
Record PhoenixChart : Type := {
  _type : PHOENIX_CHART_TYPE;
  _data : PhoenixChartData;
  _options : PhoenixChartOptions;
  _instance : list PhoenixCall;
  _packet : string
}.

Definition set__data (d : PhoenixChartData) (this : PhoenixChart)
  : PhoenixChart :=
  {| _type := _type this; _data := d; _options := _options this;
     _instance := _instance this; _packet := _packet this |}.

Definition set__options (o : PhoenixChartOptions) (this : PhoenixChart)
  : PhoenixChart :=
  {| _type := _type this; _data := _data this; _options := o;
     _instance := _instance this; _packet := _packet this |}.

Definition set__packet (p : string) (this : PhoenixChart) : PhoenixChart :=
  {| _type := _type this; _data := _data this; _options := _options this;
     _instance := _instance this; _packet := p |}.

Definition invoke (c : PhoenixCall) (this : PhoenixChart) : PhoenixChart :=
  {| _type := _type this; _data := _data this; _options := _options this;
     _instance := (_instance this ++ [c])%list; _packet := _packet this |}.

(** A method runs on [this] and completes normally or by throwing; either way
    it leaves a session behind. *)
Definition method (A : Type) : Type :=
  PhoenixChart -> PhoenixChart * completion A.

Definition ret {A : Type} (a : A) : method A :=
  fun this => (this, Normal a).

Definition bind {A B : Type} (m : method A) (k : A -> method B) : method B :=
  fun this =>
    match m this with
    | (this', Normal a) => k a this'
    | (this', Throw e) => (this', Throw e)
    end.

Definition complete {A : Type} (c : completion A) : method A :=
  fun this => (this, c).

Definition read_this : method PhoenixChart :=
  fun this => (this, Normal this).

Definition assign (f : PhoenixChart -> PhoenixChart) : method unit :=
  fun this => (f this, Normal tt).

Definition when_some {A : Type} (o : option A) (k : A -> method unit)
  : method unit :=
  match o with
  | Some a => k a
  | None => ret tt
  end.

Notation "x <- m ;; k" := (bind m (fun x => k))
  (at level 61, m at next level, right associativity).
Notation "m ;;; k" := (bind m (fun _ => k))
  (at level 61, right associativity).

(** Reading a property of an optional argument. *)
Definition deref {A : Type} (o : option A) : completion A :=
  match o with
  | Some a => Normal a
  | None => Throw (TypeError "options is undefined")
  end.

Definition update (data : PhoenixChartData)
  (options : option PhoenixChartOptions) : method unit :=
  o <- complete (deref options) ;;
  when_some (colors o)
    (fun c => assign (fun this =>
       set__options (with_colors (Some c) (_options this)) this)) ;;;
  when_some (properties o)
    (fun p => assign (fun this =>
       set__options (with_properties (Some p) (_options this)) this)) ;;;
  assign (set__data data) ;;;
  normalized <- complete (normalize data) ;;
  assign (set__data normalized) ;;;
  this <- read_this ;;
  configString <- complete
    (_createConfigString (_type this) (_data this) (Some (_options this))) ;;
  assign (set__packet configString) ;;;
  assign (fun this =>
    invoke (updateChartJson configString (not_animate (_options this))) this).

Definition setChartProperties (properties : PropertyOverridesMap)
  : method unit :=
  assign (fun this =>
    set__options (with_properties (Some properties) (_options this)) this) ;;;
  this <- read_this ;;
  update (_data this) None.

Definition resetColorPalette : method unit :=
  assign (fun this => set__options (with_colors None (_options this)) this) ;;;
  this <- read_this ;;
  update (_data this) None.

Definition getPacket : method string :=
  this <- read_this ;;
  ret (_packet this).

Definition render : method unit :=
  assign (fun this => invoke (draw (not_animate (_options this)) false) this).

Definition resize (width height : Z) : method unit :=
  assign (invoke (resize_call width height)).

(** [_createInstance] builds the first document, creates the engine with it
    and sets [_packet]; it answers the new handle. *)
Definition _createInstance (chart_type : PHOENIX_CHART_TYPE)
  (data : PhoenixChartData) (options : PhoenixChartOptions)
  : completion (list PhoenixCall * string) :=
  match _createConfigString chart_type data (Some options) with
  | Normal configString =>
      Normal ([createPhoenixWithChartState configString "{}"
                 (read (width options)) (read (height options)) true 0%Z],
              configString)
  | Throw e => Throw e
  end.

(** [new PhoenixChart(type, data, options)]. *)
Definition new_PhoenixChart (chart_type : PHOENIX_CHART_TYPE)
  (data : PhoenixChartData) (options : option PhoenixChartOptions)
  : completion PhoenixChart :=
  match normalize data with
  | Throw e => Throw e
  | Normal data =>
      let options := spread_over_defaults options in
      match _createInstance chart_type data options with
      | Normal (chart, packet) =>
          Normal {| _type := chart_type; _data := data; _options := options;
                    _instance :=
                      (chart ++ [setUsePhoenixHover true; getCanvas])%list;
                    _packet := packet |}
      | Throw e => Throw e
      end
  end.

End Chart.

(** ** A caller of the session *)

Section Calls.

Context `{CT : ChartTypes}.

(** The public methods of the class as a caller invokes them on a live
    session, one after the other; a caller that catches what a method throws
    goes on with the session the method left. *)
Inductive Call : Type :=
| Render
| Resize (width height : Z)
| Update (data : PhoenixChartData) (options : option PhoenixChartOptions)
| SetChartProperties (properties : PropertyOverridesMap)
| ResetColorPalette
| GetPacket.

Definition run_call (c : Call) (this : PhoenixChart) : PhoenixChart :=
  match c with
  | Render => fst (render this)
  | Resize w h => fst (resize w h this)
  | Update data options => fst (update data options this)
  | SetChartProperties p => fst (setChartProperties p this)
  | ResetColorPalette => fst (resetColorPalette this)
  | GetPacket => fst (getPacket this)
  end.

Definition run_calls (cs : list Call) (this : PhoenixChart) : PhoenixChart :=
  fold_left (fun s c => run_call c s) cs this.

(** Whether normalising the rows of [data] completes. *)
Definition transformable (data : PhoenixChartData) : bool :=
  match normalize data with
  | Normal _ => true
  | Throw _ => false
  end.

(** The calls other than the two convenience methods, an [update] with
    options only when its rows can be normalised. *)
Definition is_plain_call (c : Call) : bool :=
  match c with
  | SetChartProperties _ => false
  | ResetColorPalette => false
  | Update data (Some _) => transformable data
  | _ => true
  end.

End Calls.

(** The configuration string of the latest call that hands the engine a
    document, [seen] being the one found so far. *)
Fixpoint last_config (log : list PhoenixCall) (seen : option string)
  : option string :=
  match log with
  | [] => seen
  | createPhoenixWithChartState configString _ _ _ _ _ :: rest =>
      last_config rest (Some configString)
  | updateChartJson configString _ :: rest =>
      last_config rest (Some configString)
  | _ :: rest => last_config rest seen
  end.

(** ** The earlier revision of the builder *)

(** The revision of [chart.ts] that precedes maps, palettes and property
    overrides: its builder takes no options and always emits a graph
    component with empty overrides. *)
Module Earlier.

Section Builder.

Context `{CT : ChartTypes}.

Definition _toPhoenixConfig (chart_type : PHOENIX_CHART_TYPE)
  (data : PhoenixChartData) : PhoenixChartConfig :=
  [
    ("datasources", JObj [
      ("default", JObj [
        ("type", JStr "ordered-column-list");
        ("data", JObj [
          ("datasource", JStr "default");
          ("metadata",
           JArr (map (fun col => JObj [("type", type col)]) (columns data)));
          ("mappings", JArr (map (fun col => JStr (mapping col)) (columns data)));
          ("columns", JArr (map (fun col => JStr (name col)) (columns data)));
          ("rows", JArr (rows data));
          ("numRows", JNum (Z.of_nat (List.length (rows data))));
          ("numColumns", JNum (Z.of_nat (List.length (columns data))))
        ])
      ])
    ]);
    ("components", JObj [
      ("graph", JObj [
        ("type", JStr "graph");
        ("badgetype", chart_type_value chart_type);
        ("datasource", JStr "default");
        ("columnFormats", JObj []);
        ("overrides", JObj [])
      ])
    ]);
    ("conditionalFormats", JArr []);
    ("locale", JStr "en-US");
    ("version", JStr "6")
  ].

Definition _createConfigString (chart_type : PHOENIX_CHART_TYPE)
  (data : PhoenixChartData) : string :=
  JSON_stringify (_toPhoenixConfig chart_type data).

End Builder.

End Earlier.

(** ** Helpers for stating the properties *)

(** [haystack.includes(needle)]. *)
Fixpoint String_includes (needle haystack : string) : bool :=
  if String.prefix needle haystack
  then true
  else match haystack with
       | EmptyString => false
       | String _ rest => String_includes needle rest
       end.

(** A string without its first code unit. *)
Definition without_leading_char (s : string) : string :=
  match s with
  | EmptyString => EmptyString
  | String _ rest => rest
  end.

Fixpoint strings_eqb (a b : list string) : bool :=
  match a, b with
  | [], [] => true
  | x :: a', y :: b' => String.eqb x y && strings_eqb a' b'
  | _, _ => false
  end.

Fixpoint distinct (keys : list string) : bool :=
  match keys with
  | [] => true
  | k :: rest => negb (existsb (String.eqb k) rest) && distinct rest
  end.

(** Every row is a keyed mapping whose keys, as visited, are the declared
    column names in the declared order. *)
Definition rows_follow_columns (cols : list ColumnDescriptor)
  (rows : list JsVal) : bool :=
  forallb (fun row => is_keyed_mapping row
                      && strings_eqb (keys_in_order row) (map name cols)) rows.

(** No declared column is called [hasOwnProperty]. *)
Definition no_column_named_hasOwnProperty (cols : list ColumnDescriptor)
  : bool :=
  negb (existsb (String.eqb "hasOwnProperty") (map name cols)).

(** The keys are array indices in strictly ascending order, above [bound]
    when there is one, followed by keys that are no array indices. *)
Fixpoint index_keys_lead (bound : option N) (keys : list string) : bool :=
  match keys with
  | [] => true
  | key :: rest =>
      match array_index_of key with
      | Some n =>
          match bound with
          | Some b => (b <? n)%N
          | None => true
          end && index_keys_lead (Some n) rest
      | None => forallb (fun k => negb (is_array_index k)) rest
      end
  end.

(** The keys of a keyed row were inserted in the order they are visited in:
    its array-index keys first and ascending. *)
Definition inserted_in_visiting_order (row : JsVal) : bool :=
  match row with
  | JObj props => index_keys_lead None (map fst props)
  | _ => true
  end.

(** [visited] lists the properties [props] with the array-index keys first,
    in ascending numeric order, and the other keys after them in insertion
    order. *)
Definition index_keys_first (props visited : list (string * JsVal)) : Prop :=
  exists indexed,
    visited
    = (indexed ++ filter (fun p => negb (is_array_index (fst p))) props)%list /\
    Permutation indexed (filter (fun p => is_array_index (fst p)) props) /\
    StronglySorted (fun p q => (index_rank p <= index_rank q)%N) indexed.

(** What normalisation makes of one row: the ordered sequence of the row's
    values, for a keyed row with the array-index keys first, which is the
    insertion order when the keys were inserted that way. *)
Definition emitted_from (row out : JsVal) : Prop :=
  exists values,
    out = JArr values /\
    match row with
    | JObj props =>
        (exists visited,
            values = map snd visited /\ index_keys_first props visited) /\
        if inserted_in_visiting_order row
        then values = insertion_order_values row
        else True
    | other => values = insertion_order_values other
    end.

(** What lines 64-71 of [update] do to the session's options [current] when
    given the options [o]. *)
Definition merge_overrides (o current : PhoenixChartOptions)
  : PhoenixChartOptions :=
  let current :=
    match colors o with
    | Some c => with_colors (Some c) current
    | None => current
    end in
  match properties o with
  | Some p => with_properties (Some p) current
  | None => current
  end.

(** ** Sample inputs *)

Definition sample_columns : list ColumnDescriptor := [
  {| type := JStr "STRING"; name := "a"; mapping := "ITEM" |};
  {| type := JStr "LONG"; name := "b"; mapping := "VALUE" |}
].

(** [[{a:1, b:2}, {a:3, b:4}]] *)
Definition sample_keyed_rows : list JsVal := [
  JObj [("a", JNum 1); ("b", JNum 2)];
  JObj [("a", JNum 3); ("b", JNum 4)]
].

(** [[{b:2, a:1, c:3}, {a:5}]]: keys out of column order, an undeclared key,
    a missing declared key. *)
Definition sample_unaligned_rows : list JsVal := [
  JObj [("b", JNum 2); ("a", JNum 1); ("c", JNum 3)];
  JObj [("a", JNum 5)]
].

(** [[{b:1, 0:2}]]: the second key inserted is an array index. *)
Definition sample_index_key_rows : list JsVal := [
  JObj [("b", JNum 1); ("0", JNum 2)]
].

(** [[{2019:5, 2020:6, name:"x"}, {name:"y", 7:1, 3:2}]]: array-index keys
    inserted first and ascending, and inserted last and descending. *)
Definition sample_year_rows : list JsVal := [
  JObj [("2019", JNum 5); ("2020", JNum 6); ("name", JStr "x")];
  JObj [("name", JStr "y"); ("7", JNum 1); ("3", JNum 2)]
].

(** [[{hasOwnProperty:1, a:2}]]: a row with an own key [hasOwnProperty]. *)
Definition sample_shadowing_rows : list JsVal := [
  JObj [("hasOwnProperty", JNum 1); ("a", JNum 2)]
].

(** [[[1,2], {a:3, b:4}]]: an ordered sequence first, a keyed mapping after. *)
Definition sample_mixed_rows : list JsVal := [
  JArr [JNum 1; JNum 2];
  JObj [("a", JNum 3); ("b", JNum 4)]
].

Definition sample_data : PhoenixChartData :=
  {| columns := sample_columns; rows := sample_keyed_rows |}.

Definition sample_colors : list string := ["#ff0000"; "#00ff00"].

Definition options_with_colors (c : option (list string))
  : PhoenixChartOptions :=
  {| height := None; width := None; animate := None;
     colors := c; properties := None |}.

Definition sample_shadowing_data : PhoenixChartData :=
  {| columns := sample_columns; rows := sample_shadowing_rows |}.

(** Calls that all keep the packet current. *)
Definition sample_plain_calls : list Call := [
  Render;
  Update sample_data (Some (options_with_colors (Some sample_colors)));
  Resize 640 480;
  Update sample_data None;
  GetPacket
].

(** Calls of which the second and the third throw. *)
Definition sample_failing_calls : list Call := [
  Render;
  Update sample_shadowing_data
    (Some (options_with_colors (Some sample_colors)));
  ResetColorPalette;
  Update sample_data (Some (options_with_colors None))
].

(** * Properties *)

(** ** The order of own properties *)

Section PropertyOrder.

Context {V : Type}.

Lemma insert_by_index_perm (p : string * V) (l : list (string * V)) :
  Permutation (insert_by_index p l) (p :: l).
Proof.
  induction l as [|q l IH]; simpl.
  - apply Permutation_refl.
  - destruct (index_rank p <=? index_rank q)%N.
    + apply Permutation_refl.
    + apply perm_trans with (q :: p :: l).
      * apply perm_skip. exact IH.
      * apply perm_swap.
Qed.

Lemma sort_by_index_perm (l : list (string * V)) :
  Permutation (sort_by_index l) l.
Proof.
  induction l as [|p l IH]; simpl.
  - constructor.
  - eapply perm_trans.
    + apply insert_by_index_perm.
    + apply perm_skip. exact IH.
Qed.

Lemma filter_split_perm (f : string * V -> bool) (l : list (string * V)) :
  Permutation (filter f l ++ filter (fun p => negb (f p)) l)%list l.
Proof.
  induction l as [|p l IH]; simpl.
  - constructor.
  - destruct (f p); simpl.
    + apply perm_skip. exact IH.
    + apply Permutation_sym, Permutation_cons_app, Permutation_sym. exact IH.
Qed.

Lemma own_properties_in_order_perm (props : list (string * V)) :
  Permutation (own_properties_in_order props) props.
Proof.
  unfold own_properties_in_order.
  eapply perm_trans.
  - apply Permutation_app_tail. apply sort_by_index_perm.
  - apply (filter_split_perm (fun p => is_array_index (fst p))).
Qed.

Lemma filter_keeps_all (f : string * V -> bool) (l : list (string * V)) :
  forallb f l = true -> filter f l = l.
Proof.
  induction l as [|p l IH]; simpl; intros H.
  - reflexivity.
  - apply andb_true_iff in H. destruct H as [Hp Hl].
    rewrite Hp. f_equal. auto.
Qed.

Lemma filter_keeps_none (f : string * V -> bool) (l : list (string * V)) :
  forallb (fun p => negb (f p)) l = true -> filter f l = [].
Proof.
  induction l as [|p l IH]; simpl; intros H.
  - reflexivity.
  - apply andb_true_iff in H. destruct H as [Hp Hl].
    apply negb_true_iff in Hp. rewrite Hp. auto.
Qed.

(** Without array-index keys the visiting order is the insertion order. *)
Lemma own_properties_in_order_plain (props : list (string * V)) :
  forallb (fun p => negb (is_array_index (fst p))) props = true ->
  own_properties_in_order props = props.
Proof.
  intros H. unfold own_properties_in_order.
  rewrite (filter_keeps_none (fun p => is_array_index (fst p))) by exact H.
  simpl. apply filter_keeps_all. exact H.
Qed.

End PropertyOrder.

(** ** Lookups *)

Lemma get_own_In (k : string) (v : JsVal) (l : list (string * JsVal)) :
  NoDup (map fst l) -> In (k, v) l -> get_own k l = v.
Proof.
  induction l as [|[k' v'] l IH]; simpl; intros Hnd Hin.
  - contradiction.
  - inversion Hnd as [|? ? Hnotin Hnd']; subst.
    destruct Hin as [Heq | Hin].
    + inversion Heq; subst. rewrite String.eqb_refl. reflexivity.
    + destruct (String.eqb_spec k' k) as [-> | Hne].
      * exfalso. apply Hnotin. change k with (fst (k, v)).
        apply in_map. exact Hin.
      * auto.
Qed.

Lemma get_own_perm (k : string) (l l' : list (string * JsVal)) :
  NoDup (map fst l) -> Permutation l l' -> get_own k l = get_own k l'.
Proof.
  intros Hnd Hp.
  assert (Hnd' : NoDup (map fst l')).
  { eapply Permutation_NoDup; [apply Permutation_map; exact Hp | exact Hnd]. }
  destruct (in_dec string_dec k (map fst l)) as [Hin | Hout].
  - apply in_map_iff in Hin. destruct Hin as [[k0 v] [Hk Hin]].
    simpl in Hk. subst k0.
    rewrite (get_own_In k v l Hnd Hin).
    symmetry. apply get_own_In; [exact Hnd'|].
    eapply Permutation_in; eauto.
  - assert (Hmiss : forall m, ~ In k (map fst m) -> get_own k m = JUndefined).
    { induction m as [|[k' v'] m IH]; simpl; intros Hn; [reflexivity|].
      destruct (String.eqb_spec k' k) as [-> | Hne]; [tauto|].
      apply IH. tauto. }
    rewrite (Hmiss l Hout). symmetry. apply Hmiss.
    intros Hin. apply Hout.
    eapply Permutation_in; [apply Permutation_sym, Permutation_map; exact Hp|].
    exact Hin.
Qed.

Lemma lookups_in_key_order (l : list (string * JsVal)) :
  NoDup (map fst l) -> map (fun k => get_own k l) (map fst l) = map snd l.
Proof.
  intros Hnd. rewrite map_map. apply map_ext_in.
  intros [k v] Hin. simpl. apply get_own_In; assumption.
Qed.

Lemma strings_eqb_eq (a b : list string) :
  strings_eqb a b = true -> a = b.
Proof.
  revert b. induction a as [|x a IH]; destruct b as [|y b]; simpl;
    try discriminate; intros H.
  - reflexivity.
  - apply andb_true_iff in H. destruct H as [Hxy Hab].
    apply String.eqb_eq in Hxy. f_equal; auto.
Qed.

Lemma distinct_NoDup (keys : list string) :
  distinct keys = true -> NoDup keys.
Proof.
  induction keys as [|k rest IH]; simpl; intros H.
  - constructor.
  - apply andb_true_iff in H. destruct H as [Hk Hrest].
    constructor; [|auto].
    intros Hin. apply negb_true_iff in Hk.
    assert (Hex : existsb (String.eqb k) rest = true).
    { apply existsb_exists. exists k. split; [exact Hin|apply String.eqb_refl]. }
    congruence.
Qed.

(** ** The visiting order *)

Section VisitingOrder.

Context {V : Type}.

Lemma insert_by_index_sorted (p : string * V) (l : list (string * V)) :
  StronglySorted (fun a b => (index_rank a <= index_rank b)%N) l ->
  StronglySorted (fun a b => (index_rank a <= index_rank b)%N)
    (insert_by_index p l).
Proof.
  induction l as [|q l IH]; simpl; intros Hl.
  - constructor; constructor.
  - inversion Hl as [|? ? Hsorted Hall]; subst.
    destruct (index_rank p <=? index_rank q)%N eqn:Hle.
    + apply N.leb_le in Hle. constructor; [exact Hl|].
      constructor; [exact Hle|].
      eapply Forall_impl; [|exact Hall].
      intros r Hr. simpl in Hr. lia.
    + apply N.leb_gt in Hle. constructor; [apply IH; exact Hsorted|].
      eapply Permutation_Forall.
      * apply Permutation_sym. apply insert_by_index_perm.
      * constructor; [lia | exact Hall].
Qed.

Lemma sort_by_index_sorted (l : list (string * V)) :
  StronglySorted (fun a b => (index_rank a <= index_rank b)%N)
    (sort_by_index l).
Proof.
  induction l as [|p l IH]; simpl.
  - constructor.
  - apply insert_by_index_sorted. exact IH.
Qed.

Lemma insert_by_index_front (p : string * V) (l : list (string * V)) :
  Forall (fun q => (index_rank p <= index_rank q)%N) l ->
  insert_by_index p l = p :: l.
Proof.
  destruct l as [|q l]; simpl; intros Hall.
  - reflexivity.
  - inversion Hall as [|? ? Hq _]; subst.
    apply N.leb_le in Hq. rewrite Hq. reflexivity.
Qed.

(** Properties inserted with the array-index keys first and ascending are
    visited in the order they were inserted. *)
Lemma own_properties_in_order_as_inserted (props : list (string * V)) :
  forall bound,
    index_keys_lead bound (map fst props) = true ->
    own_properties_in_order props = props /\
    Forall (fun q => match bound, array_index_of (fst q) with
                     | Some b, Some n => (b < n)%N
                     | _, _ => True
                     end) props.
Proof.
  induction props as [|[k v] props IH]; intros bound Hlead.
  - split; [reflexivity | constructor].
  - simpl in Hlead.
    destruct (array_index_of k) as [n|] eqn:Hk.
    + apply andb_true_iff in Hlead. destruct Hlead as [Hbound Hrest].
      destruct (IH (Some n) Hrest) as [Hsame Habove].
      split.
      * assert (Hidx : is_array_index k = true)
          by (unfold is_array_index; rewrite Hk; reflexivity).
        unfold own_properties_in_order. cbn [filter fst].
        rewrite Hidx. cbn [negb sort_by_index].
        rewrite insert_by_index_front.
        -- cbn [app]. f_equal. exact Hsame.
        -- eapply Permutation_Forall;
             [apply Permutation_sym, sort_by_index_perm|].
           apply Forall_forall. intros q Hq.
           apply filter_In in Hq. destruct Hq as [Hin Hq].
           rewrite Forall_forall in Habove. specialize (Habove q Hin).
           unfold is_array_index in Hq. unfold index_rank. simpl.
           rewrite Hk.
           destruct (array_index_of (fst q)); [lia | discriminate].
      * constructor.
        -- simpl. rewrite Hk. destruct bound as [b|]; [|exact I].
           apply N.ltb_lt. exact Hbound.
        -- eapply Forall_impl; [|exact Habove].
           intros q Hq. cbv beta in Hq. destruct bound as [b|]; [|exact I].
           destruct (array_index_of (fst q)) as [m|]; [|exact I].
           apply N.ltb_lt in Hbound. lia.
    + split.
      * apply own_properties_in_order_plain. cbn [forallb fst].
        assert (Hidx : is_array_index k = false)
          by (unfold is_array_index; rewrite Hk; reflexivity).
        rewrite Hidx. cbn [negb andb].
        rewrite forallb_forall in *. intros q Hq.
        apply Hlead. apply in_map. exact Hq.
      * constructor.
        -- simpl. rewrite Hk. destruct bound; exact I.
        -- apply Forall_forall. intros q Hq.
           rewrite forallb_forall in Hlead.
           specialize (Hlead (fst q) (in_map fst _ _ Hq)).
           unfold is_array_index in Hlead.
           destruct (array_index_of (fst q)); [discriminate|].
           destruct bound; exact I.
Qed.

End VisitingOrder.

Lemma own_properties_index_keys_first (props : list (string * JsVal)) :
  index_keys_first props (own_properties_in_order props).
Proof.
  exists (sort_by_index (filter (fun p => is_array_index (fst p)) props)).
  split; [reflexivity|]. split.
  - apply sort_by_index_perm.
  - apply sort_by_index_sorted.
Qed.

(** The sort is what puts the later-inserted smaller index first. *)
Example visiting_order_sorts_indices :
  own_properties_in_order
    [("name", JStr "y"); ("7", JNum 1); ("3", JNum 2)]
  = [("3", JNum 2); ("7", JNum 1); ("name", JStr "y")].
Proof. reflexivity. Qed.

(** ** Row normalisation *)

Lemma has_own_In (key : string) (props : list (string * JsVal)) :
  has_own key props = true -> In key (map fst props).
Proof.
  unfold has_own. intros H. apply existsb_exists in H.
  destruct H as [p [Hin Heq]]. apply String.eqb_eq in Heq. subst key.
  apply in_map. exact Hin.
Qed.

(** The callback throws exactly on a row that has [hasOwnProperty] as a key
    of its own, and otherwise yields the values in visiting order. *)
Lemma own_values_spec (row : JsVal) :
  own_values row
  = if shadows_hasOwnProperty row
    then Throw (TypeError "row.hasOwnProperty is not a function")
    else Normal (visited_values row).
Proof.
  unfold own_values.
  destruct (visited_values row) as [|v values] eqn:Hvisited.
  - destruct row as [ | | | | | |props]; try reflexivity.
    simpl in Hvisited. apply map_eq_nil in Hvisited.
    pose proof (own_properties_in_order_perm props) as Hperm.
    rewrite Hvisited in Hperm. apply Permutation_nil in Hperm.
    subst props. reflexivity.
  - destruct (shadows_hasOwnProperty row); reflexivity.
Qed.

Lemma transformData_spec (rows : list JsVal) :
  transformData rows
  = if existsb shadows_hasOwnProperty rows
    then Throw (TypeError "row.hasOwnProperty is not a function")
    else Normal (map (fun row => JArr (visited_values row)) rows).
Proof.
  induction rows as [|row rest IH]; simpl.
  - reflexivity.
  - rewrite own_values_spec.
    destruct (shadows_hasOwnProperty row); simpl; [reflexivity|].
    rewrite IH. destruct (existsb shadows_hasOwnProperty rest); reflexivity.
Qed.

Lemma normalize_rows_keyed_first (rows : list JsVal) :
  Array_isArray (array_get rows 0) = false ->
  normalize_rows rows = transformData rows.
Proof.
  intros H. unfold normalize_rows. rewrite H. reflexivity.
Qed.

Lemma keyed_mapping_not_array (row : JsVal) :
  is_keyed_mapping row = true -> Array_isArray row = false.
Proof.
  destruct row; simpl; intros H; try discriminate; reflexivity.
Qed.

Lemma normalize_by_rows (data : PhoenixChartData) :
  normalize data
  = match normalize_rows (rows data) with
    | Normal newRows => Normal (with_rows newRows data)
    | Throw e => Throw e
    end.
Proof.
  unfold normalize, normalize_rows.
  destruct (negb (Array_isArray (array_get (rows data) 0))).
  - reflexivity.
  - destruct data; reflexivity.
Qed.

Lemma visited_values_by_columns (cols : list ColumnDescriptor) (row : JsVal) :
  NoDup (map name cols) ->
  is_keyed_mapping row = true ->
  keys_in_order row = map name cols ->
  visited_values row = map (fun col => prop (name col) row) cols.
Proof.
  intros Hnd Hobj Hkeys.
  destruct row as [ | | | | | |props]; try discriminate Hobj.
  simpl in *.
  assert (Hq : NoDup (map fst (own_properties_in_order props))).
  { rewrite Hkeys. exact Hnd. }
  rewrite <- (lookups_in_key_order _ Hq).
  rewrite Hkeys, map_map.
  apply map_ext. intros col.
  apply get_own_perm; [exact Hq|].
  apply own_properties_in_order_perm.
Qed.

Lemma visited_values_length (cols : list ColumnDescriptor) (row : JsVal) :
  is_keyed_mapping row = true ->
  keys_in_order row = map name cols ->
  List.length (visited_values row) = List.length cols.
Proof.
  intros Hobj Hkeys.
  destruct row as [ | | | | | |props]; try discriminate Hobj.
  simpl in *.
  rewrite length_map, <- (length_map fst), Hkeys, length_map.
  reflexivity.
Qed.

Lemma keyed_by_columns_not_shadowing (cols : list ColumnDescriptor)
  (row : JsVal) :
  no_column_named_hasOwnProperty cols = true ->
  keys_in_order row = map name cols ->
  shadows_hasOwnProperty row = false.
Proof.
  intros Hcols Hkeys.
  destruct row as [ | | | | | |props]; try reflexivity.
  destruct (shadows_hasOwnProperty (JObj props)) eqn:Hshadow; [|reflexivity].
  exfalso. unfold shadows_hasOwnProperty in Hshadow. simpl in Hshadow.
  apply has_own_In in Hshadow.
  assert (Hin : In "hasOwnProperty" (map name cols)).
  { rewrite <- Hkeys. simpl.
    eapply Permutation_in; [|exact Hshadow].
    apply Permutation_sym, Permutation_map, own_properties_in_order_perm. }
  unfold no_column_named_hasOwnProperty in Hcols.
  apply negb_true_iff in Hcols.
  assert (Hex : existsb (String.eqb "hasOwnProperty") (map name cols) = true).
  { apply existsb_exists. exists "hasOwnProperty".
    split; [exact Hin | reflexivity]. }
  congruence.
Qed.

(** C4, as the code has it: when the declared column names are distinct,
    none of them is [hasOwnProperty], and every row is a keyed mapping whose
    own keys, in the order they are visited, are exactly the declared column
    names in the declared order, normalisation completes and yields for
    every row the ordered sequence of its values in column order, of length
    [columns.length]. *)
Theorem normalize_rows_matches_columns
  (cols : list ColumnDescriptor) (rows : list JsVal) :
  distinct (map name cols) = true ->
  no_column_named_hasOwnProperty cols = true ->
  rows_follow_columns cols rows = true ->
  exists out,
    normalize_rows rows = Normal out /\
    out = rows_by_columns cols rows /\
    Forall (fun row => exists values,
              row = JArr values /\ List.length values = List.length cols)
           out.
Proof.
  intros Hdist Hcols Hrows.
  apply distinct_NoDup in Hdist.
  unfold rows_follow_columns in Hrows.
  rewrite forallb_forall in Hrows.
  assert (Hrow : forall row, In row rows ->
             is_keyed_mapping row = true
             /\ keys_in_order row = map name cols).
  { intros row Hin. specialize (Hrows row Hin).
    apply andb_true_iff in Hrows. destruct Hrows as [Hobj Hkeys].
    split; [exact Hobj | apply strings_eqb_eq; exact Hkeys]. }
  assert (Hfirst : Array_isArray (array_get rows 0) = false).
  { destruct rows as [|r rest]; [reflexivity|].
    simpl. apply keyed_mapping_not_array.
    apply (Hrow r). left. reflexivity. }
  assert (Hplain : existsb shadows_hasOwnProperty rows = false).
  { destruct (existsb shadows_hasOwnProperty rows) eqn:Hex; [|reflexivity].
    apply existsb_exists in Hex. destruct Hex as [row [Hin Hshadow]].
    rewrite (keyed_by_columns_not_shadowing cols row Hcols) in Hshadow;
      [discriminate | apply Hrow; exact Hin]. }
  exists (rows_by_columns cols rows).
  rewrite (normalize_rows_keyed_first rows Hfirst), transformData_spec, Hplain.
  unfold rows_by_columns. split; [|split; [reflexivity|]].
  - f_equal. apply map_ext_in. intros row Hin.
    destruct (Hrow row Hin) as [Hobj Hkeys].
    f_equal. apply visited_values_by_columns; assumption.
  - apply Forall_forall. intros out Hin.
    apply in_map_iff in Hin. destruct Hin as [row [Hout Hin]].
    eexists. split; [symmetry; exact Hout|].
    rewrite length_map. reflexivity.
Qed.

Lemma emitted_from_visited (row : JsVal) :
  emitted_from row (JArr (visited_values row)).
Proof.
  exists (visited_values row). split; [reflexivity|].
  destruct row as [ | | | | | |props]; try reflexivity.
  split.
  - exists (own_properties_in_order props).
    split; [reflexivity | apply own_properties_index_keys_first].
  - destruct (inserted_in_visiting_order (JObj props)) eqn:Hins; [|exact I].
    simpl in *.
    destruct (own_properties_in_order_as_inserted props None Hins) as [-> _].
    reflexivity.
Qed.

(** C5, as the code has it: when the first row is a keyed mapping,
    normalisation throws if some row has an own key [hasOwnProperty], and
    otherwise turns every row into the ordered sequence of its own values, a
    keyed row's array-index keys first in ascending numeric order and its
    other keys after them in insertion order; that is the row's
    key-insertion order when its array-index keys were inserted first and
    ascending.  The declared columns play no part. *)
Theorem normalize_rows_visiting_order (rows : list JsVal) :
  is_keyed_mapping (array_get rows 0) = true ->
  if existsb shadows_hasOwnProperty rows
  then normalize_rows rows
       = Throw (TypeError "row.hasOwnProperty is not a function")
  else exists out,
         normalize_rows rows = Normal out /\ Forall2 emitted_from rows out.
Proof.
  intros Hfirst.
  rewrite normalize_rows_keyed_first
    by (apply keyed_mapping_not_array; exact Hfirst).
  rewrite transformData_spec.
  destruct (existsb shadows_hasOwnProperty rows); [reflexivity|].
  eexists. split; [reflexivity|].
  clear Hfirst. induction rows as [|row rest IH]; simpl.
  - constructor.
  - constructor; [apply emitted_from_visited | exact IH].
Qed.

(** ** Serialization *)

(** [JSON_stringify] is the object case of the serializer. *)
Lemma JSON_stringify_object (o : list (string * JsVal)) :
  SerializeJSONProperty (JObj o) = Some (JSON_stringify o).
Proof.
  reflexivity.
Qed.

(** A property whose value is [undefined] leaves no trace in the text. *)
Example JSON_stringify_sample :
  JSON_stringify [("b", JNum (-12)); ("u", JUndefined);
                  ("0", JArr [JUndefined; JNull; JBool true])]
  = "{" ++ QuoteJSONString "0" ++ ":[null,null,true],"
    ++ QuoteJSONString "b" ++ ":-12}".
Proof.
  reflexivity.
Qed.

(** ** The palette *)

Lemma String_substring_1 (s : string) :
  String_substring 1 s = without_leading_char s.
Proof.
  destruct s as [|c rest]; reflexivity.
Qed.

Lemma Array_map_from_positions {A B : Type} (g : nat -> B) (a : list A) :
  forall start,
    Array_map_from (fun _ index => g index) start a
    = map g (seq start (List.length a)).
Proof.
  induction a as [|x rest IH]; intros start; simpl.
  - reflexivity.
  - rewrite IH. reflexivity.
Qed.

(** C6: for a non-empty colour list [C], [colorRanges[0].values] of the
    palette has the length and the order of [C], and its entry at position
    [i] is [C[i]] without its leading character. *)
Theorem createPalette_colorRanges_values (C : list string) :
  C <> [] ->
  exists values,
    prop "values" (elem 0 (prop "colorRanges" (_createPalette C)))
    = JArr values /\
    values = map (fun color => JStr (without_leading_char color)) C /\
    List.length values = List.length C /\
    forall i, i < List.length C ->
      nth i values JUndefined = JStr (without_leading_char (nth i C "")).
Proof.
  intros _.
  exists (map (fun color => JStr (without_leading_char color)) C).
  split; [|split; [reflexivity|split]].
  - cbn [_createPalette prop elem get_own array_get nth String.eqb Ascii.eqb
         Bool.eqb].
    apply f_equal. apply map_ext. intros color.
    apply f_equal. apply String_substring_1.
  - apply length_map.
  - intros i Hi.
    rewrite (nth_indep _ JUndefined (JStr (without_leading_char "")))
      by (rewrite length_map; exact Hi).
    apply (map_nth (fun color => JStr (without_leading_char color))).
Qed.

(** C7: for a non-empty colour list [C], [colorRules] holds the single rule
    [{min: 1, max: |C|, values: [[0,0], [0,1], ..., [0,|C|-1]]}]. *)
Theorem createPalette_colorRules (C : list string) :
  C <> [] ->
  elem 0 (prop "colorRules" (_createPalette C))
  = JObj [
      ("min", JNum 1);
      ("max", JNum (Z.of_nat (List.length C)));
      ("values",
       JArr (map (fun index => JArr [JNum 0; JNum (Z.of_nat index)])
               (seq 0 (List.length C))))
    ] /\
  prop "colorRules" (_createPalette C)
  = JArr [elem 0 (prop "colorRules" (_createPalette C))].
Proof.
  intros _. split.
  - simpl. unfold Array_map_indexed.
    rewrite (Array_map_from_positions
               (fun index => JArr [JNum 0; JNum (Z.of_nat index)])).
    reflexivity.
  - reflexivity.
Qed.

(** ** The configuration document *)

Section ConfigurationFacts.

Context `{CT : ChartTypes}.

Lemma toPhoenixConfig_total (t : PHOENIX_CHART_TYPE) (data : PhoenixChartData)
  (o : PhoenixChartOptions) :
  exists config, _toPhoenixConfig t data (Some o) = Normal config.
Proof.
  unfold _toPhoenixConfig. eexists. reflexivity.
Qed.

Lemma createConfigString_total (t : PHOENIX_CHART_TYPE)
  (data : PhoenixChartData) (o : PhoenixChartOptions) :
  exists configString, _createConfigString t data (Some o) = Normal configString.
Proof.
  unfold _createConfigString.
  destruct (toPhoenixConfig_total t data o) as [config ->].
  eexists. reflexivity.
Qed.

(** C1: for every chart kind, data and options the builder yields a document
    in which exactly one of [components.graph] and [components.map] is
    present, the one of the kind's class, carrying the kind as [badgetype];
    and [maps] is present exactly for a map kind. *)
Theorem toPhoenixConfig_graph_xor_map (t : PHOENIX_CHART_TYPE)
  (data : PhoenixChartData) (o : PhoenixChartOptions) :
  exists config,
    _toPhoenixConfig t data (Some o) = Normal config /\
    hasOwnProperty "graph" (get_own "components" config) = negb (_isMap t) /\
    hasOwnProperty "map" (get_own "components" config) = _isMap t /\
    has_own "maps" config = _isMap t /\
    if _isMap t
    then prop "type" (prop "map" (get_own "components" config)) = JStr "map" /\
         prop "badgetype" (prop "map" (get_own "components" config))
         = chart_type_value t /\
         get_own "maps" config = _getMapDefinition t
    else prop "type" (prop "graph" (get_own "components" config)) = JStr "graph" /\
         prop "badgetype" (prop "graph" (get_own "components" config))
         = chart_type_value t.
Proof.
  unfold _toPhoenixConfig.
  destruct (_isMap t) eqn:Hmap; destruct (colors o) as [c|];
    eexists; (split; [reflexivity|]); cbn; repeat split.
Qed.

(** C2, as the code has it: the document has a [palette] key exactly when
    [options.colors] is not null, an empty list included; the key then holds
    the palette built from the colours, and is omitted (not set to null) when
    [colors] is null. *)
Theorem toPhoenixConfig_palette_iff_colors (t : PHOENIX_CHART_TYPE)
  (data : PhoenixChartData) (o : PhoenixChartOptions) :
  exists config,
    _toPhoenixConfig t data (Some o) = Normal config /\
    match colors o with
    | Some c => has_own "palette" config = true /\
                get_own "palette" config = _createPalette c
    | None => has_own "palette" config = false
    end.
Proof.
  unfold _toPhoenixConfig.
  destruct (_isMap t) eqn:Hmap; destruct (colors o) as [c|];
    eexists; (split; [reflexivity|]); cbn; repeat split.
Qed.

End ConfigurationFacts.

(** ** The session *)

Lemma normalize_rows_idempotent (rows out : list JsVal) :
  normalize_rows rows = Normal out -> normalize_rows out = Normal out.
Proof.
  unfold normalize_rows.
  destruct (Array_isArray (array_get rows 0)) eqn:Hfirst; cbn [negb].
  - intros Heq. inversion Heq; subst. rewrite Hfirst. reflexivity.
  - rewrite transformData_spec.
    destruct (existsb shadows_hasOwnProperty rows); [discriminate|].
    intros Heq. inversion Heq; subst.
    destruct rows as [|r rest]; reflexivity.
Qed.

Lemma normalize_idempotent (data normalized : PhoenixChartData) :
  normalize data = Normal normalized -> normalize normalized = Normal normalized.
Proof.
  rewrite !normalize_by_rows.
  destruct (normalize_rows (rows data)) as [out|e] eqn:Hrows; [|discriminate].
  intros Heq. inversion Heq; subst. cbn [rows with_rows].
  rewrite (normalize_rows_idempotent _ _ Hrows). reflexivity.
Qed.

Lemma normalize_columns (data normalized : PhoenixChartData) :
  normalize data = Normal normalized ->
  columns normalized = columns data /\
  normalize_rows (rows data) = Normal (rows normalized).
Proof.
  rewrite normalize_by_rows.
  destruct (normalize_rows (rows data)) as [out|e]; [|discriminate].
  intros Heq. inversion Heq; subst. split; reflexivity.
Qed.

Lemma merge_overrides_idempotent (o current : PhoenixChartOptions) :
  merge_overrides o (merge_overrides o current) = merge_overrides o current.
Proof.
  unfold merge_overrides.
  destruct (colors o) as [c|]; destruct (properties o) as [p|]; reflexivity.
Qed.

Lemma merge_overrides_frame (o current : PhoenixChartOptions) :
  height (merge_overrides o current) = height current /\
  width (merge_overrides o current) = width current /\
  animate (merge_overrides o current) = animate current /\
  colors (merge_overrides o current) = or_else (colors o) (colors current) /\
  properties (merge_overrides o current)
  = or_else (properties o) (properties current).
Proof.
  unfold merge_overrides.
  destruct (colors o) as [c|]; destruct (properties o) as [p|];
    repeat split; reflexivity.
Qed.

Section SessionFacts.

Context `{CT : ChartTypes}.

Lemma update_undefined_options (data : PhoenixChartData) (this : PhoenixChart) :
  update data None this = (this, Throw (TypeError "options is undefined")).
Proof.
  reflexivity.
Qed.

(** With options supplied and rows that can be normalised [update] completes
    normally, and the session it leaves is determined as follows. *)
Lemma update_completing (data normalized : PhoenixChartData)
  (o : PhoenixChartOptions) (this : PhoenixChart) :
  normalize data = Normal normalized ->
  exists configString,
    _createConfigString (_type this) normalized
      (Some (merge_overrides o (_options this))) = Normal configString /\
    update data (Some o) this
    = ({| _type := _type this;
          _data := normalized;
          _options := merge_overrides o (_options this);
          _instance :=
            (_instance this
             ++ [updateChartJson configString
                   (not_animate (merge_overrides o (_options this)))])%list;
          _packet := configString |},
       Normal tt).
Proof.
  intros Hnorm.
  destruct (createConfigString_total (_type this) normalized
              (merge_overrides o (_options this))) as [configString Hcs].
  exists configString. split; [exact Hcs|].
  unfold update, bind, complete, deref, when_some, assign, read_this, ret,
    merge_overrides in *.
  destruct (colors o) as [c|]; destruct (properties o) as [p|];
    cbn [set__options set__data set__packet invoke _type _data _options
         _instance _packet] in *;
    rewrite Hnorm;
    cbn [set__options set__data set__packet invoke _type _data _options
         _instance _packet] in *;
    rewrite Hcs; reflexivity.
Qed.

(** When normalising the rows throws, [update] has merged the options and
    assigned the data as given (line 72), and has neither rebuilt the packet
    nor called the engine. *)
Lemma update_throwing (data : PhoenixChartData) (e : JsError)
  (o : PhoenixChartOptions) (this : PhoenixChart) :
  normalize data = Throw e ->
  update data (Some o) this
  = ({| _type := _type this;
        _data := data;
        _options := merge_overrides o (_options this);
        _instance := _instance this;
        _packet := _packet this |},
     Throw e).
Proof.
  intros Hnorm.
  unfold update, bind, complete, deref, when_some, assign, read_this, ret,
    merge_overrides.
  destruct (colors o) as [c|]; destruct (properties o) as [p|];
    cbn [set__options set__data set__packet invoke _type _data _options
         _instance _packet];
    rewrite Hnorm; reflexivity.
Qed.

Lemma new_PhoenixChart_completing (t : PHOENIX_CHART_TYPE)
  (data normalized : PhoenixChartData) (options : option PhoenixChartOptions) :
  normalize data = Normal normalized ->
  exists configString,
    _createConfigString t normalized
      (Some (spread_over_defaults options)) = Normal configString /\
    new_PhoenixChart t data options
    = Normal {| _type := t;
                _data := normalized;
                _options := spread_over_defaults options;
                _instance :=
                  [createPhoenixWithChartState configString "{}"
                     (read (width (spread_over_defaults options)))
                     (read (height (spread_over_defaults options))) true 0%Z;
                   setUsePhoenixHover true; getCanvas];
                _packet := configString |}.
Proof.
  intros Hnorm.
  destruct (createConfigString_total t normalized
              (spread_over_defaults options)) as [configString Hcs].
  exists configString. split; [exact Hcs|].
  unfold new_PhoenixChart, _createInstance. rewrite Hnorm, Hcs. reflexivity.
Qed.

Lemma new_PhoenixChart_throwing (t : PHOENIX_CHART_TYPE)
  (data : PhoenixChartData) (e : JsError)
  (options : option PhoenixChartOptions) :
  normalize data = Throw e -> new_PhoenixChart t data options = Throw e.
Proof.
  intros Hnorm. unfold new_PhoenixChart. rewrite Hnorm. reflexivity.
Qed.

Lemma createConfigString_of_config (t : PHOENIX_CHART_TYPE)
  (data : PhoenixChartData) (o : PhoenixChartOptions) (configString : string) :
  _createConfigString t data (Some o) = Normal configString ->
  exists config,
    _toPhoenixConfig t data (Some o) = Normal config /\
    configString = JSON_stringify config.
Proof.
  unfold _createConfigString.
  destruct (toPhoenixConfig_total t data o) as [config Hdoc].
  rewrite Hdoc. intros Heq. inversion Heq; subst.
  exists config. split; reflexivity.
Qed.

(** Both convenience methods assign their option and then call [update]
    without options. *)
Lemma resetColorPalette_throws (this : PhoenixChart) :
  resetColorPalette this
  = (set__options (with_colors None (_options this)) this,
     Throw (TypeError "options is undefined")).
Proof.
  reflexivity.
Qed.

Lemma setChartProperties_throws (p : PropertyOverridesMap)
  (this : PhoenixChart) :
  setChartProperties p this
  = (set__options (with_properties (Some p) (_options this)) this,
     Throw (TypeError "options is undefined")).
Proof.
  reflexivity.
Qed.

(** C8: when the first element of the rows is an ordered sequence,
    normalisation returns the rows unchanged, whatever the later rows are;
    so do [update] and the constructor, which keep the data as given. *)
Theorem normalize_rows_array_first (input : list JsVal) :
  Array_isArray (array_get input 0) = true ->
  normalize_rows input = Normal input /\
  forall cols,
    let data := {| columns := cols; rows := input |} in
    normalize data = Normal data /\
    (forall o this, _data (fst (update data (Some o) this)) = data) /\
    (forall t options, exists s,
        new_PhoenixChart t data options = Normal s /\ _data s = data).
Proof.
  intros Hfirst. split.
  - unfold normalize_rows. rewrite Hfirst. reflexivity.
  - intros cols data.
    assert (Hnorm : normalize data = Normal data).
    { unfold normalize. subst data. cbn [rows]. rewrite Hfirst. reflexivity. }
    split; [exact Hnorm|]. split.
    + intros o this.
      destruct (update_completing data data o this Hnorm) as [cs [_ ->]].
      reflexivity.
    + intros t options.
      destruct (new_PhoenixChart_completing t data data options Hnorm)
        as [cs [_ Hnew]].
      eexists. split; [exact Hnew | reflexivity].
Qed.

(** C9: a second [update] with the same data and the same options leaves the
    same packet as the first, both when the data is an equal copy and when it
    is the caller's object as the first call left it, and completes the way
    the first did.  When options are given and the rows can be normalised,
    each call completes normally, builds the document of the normalised data
    and the merged options, keeps its text as the packet and pushes that same
    text to the engine; otherwise both calls throw and the packet stays what
    it was. *)
Theorem update_twice_same_packet (data : PhoenixChartData)
  (options : option PhoenixChartOptions) (this : PhoenixChart) :
  let once := fst (update data options this) in
  _packet (fst (update data options once)) = _packet once /\
  _packet (fst (update (_data once) options once)) = _packet once /\
  snd (update data options once) = snd (update data options this) /\
  match options, normalize data with
  | Some _, Normal normalized =>
      exists config,
        snd (update data options this) = Normal tt /\
        _data once = normalized /\
        _toPhoenixConfig (_type this) (_data once) (Some (_options once))
        = Normal config /\
        _packet once = JSON_stringify config /\
        _instance once
        = (_instance this
           ++ [updateChartJson (JSON_stringify config)
                 (not_animate (_options this))])%list /\
        _instance (fst (update data options once))
        = (_instance once
           ++ [updateChartJson (JSON_stringify config)
                 (not_animate (_options this))])%list
  | Some _, Throw e =>
      snd (update data options this) = Throw e /\
      _packet once = _packet this /\
      _instance (fst (update data options once)) = _instance this
  | None, _ =>
      snd (update data options this)
      = Throw (TypeError "options is undefined") /\
      _packet once = _packet this /\
      _instance (fst (update data options once)) = _instance this
  end.
Proof.
  intros once. subst once.
  destruct options as [o|].
  - destruct (normalize data) as [normalized|e] eqn:Hnorm.
    + destruct (update_completing data normalized o this Hnorm)
        as [cs1 [Hcs1 ->]].
      cbn [fst snd].
      set (once := {| _type := _type this; _data := normalized;
                      _options := merge_overrides o (_options this);
                      _instance := _; _packet := cs1 |}).
      destruct (update_completing data normalized o once Hnorm)
        as [cs2 [Hcs2 ->]].
      destruct (update_completing normalized normalized o once
                  (normalize_idempotent _ _ Hnorm)) as [cs3 [Hcs3 Hup3]].
      change (_data once) with normalized. rewrite Hup3.
      subst once. cbn [fst snd _type _data _options _instance _packet] in *.
      rewrite merge_overrides_idempotent in *.
      assert (E2 : cs2 = cs1) by congruence.
      assert (E3 : cs3 = cs1) by congruence.
      subst cs2 cs3.
      destruct (createConfigString_of_config _ _ _ _ Hcs1)
        as [config [Hdoc ->]].
      assert (Hanim : not_animate (merge_overrides o (_options this))
                      = not_animate (_options this)).
      { unfold not_animate.
        destruct (merge_overrides_frame o (_options this)) as [_ [_ [-> _]]].
        reflexivity. }
      rewrite Hanim.
      repeat split; try reflexivity.
      exists config. repeat split; try reflexivity. exact Hdoc.
    + rewrite (update_throwing data e o this Hnorm). cbn [fst snd _data].
      rewrite (update_throwing data e o _ Hnorm). cbn [fst snd _packet _instance].
      repeat split; reflexivity.
  - rewrite !update_undefined_options. cbn [fst snd].
    rewrite ?update_undefined_options. cbn [fst snd].
    destruct (normalize data); repeat split; reflexivity.
Qed.

(** C10: [update] called without options throws at its first statement: the
    session is left exactly as it was, so [_data], [_packet] and
    [options.colors] are unchanged and nothing is pushed to the engine. *)
Theorem update_without_options_throws (data : PhoenixChartData)
  (this : PhoenixChart) :
  snd (update data None this) = Throw (TypeError "options is undefined") /\
  fst (update data None this) = this /\
  _data (fst (update data None this)) = _data this /\
  _packet (fst (update data None this)) = _packet this /\
  colors (_options (fst (update data None this))) = colors (_options this) /\
  _instance (fst (update data None this)) = _instance this.
Proof.
  rewrite update_undefined_options. cbn [fst snd].
  repeat split; reflexivity.
Qed.

End SessionFacts.

(** ** The properties on the sample inputs *)

Example normalize_rows_keyed_sample :
  normalize_rows sample_keyed_rows
  = Normal [JArr [JNum 1; JNum 2]; JArr [JNum 3; JNum 4]].
Proof. reflexivity. Qed.

(** A row keyed by a name and two years: the years come first. *)
Example normalize_rows_year_keys :
  normalize_rows
    [JObj [("name", JStr "x"); ("2019", JNum 5); ("2020", JNum 6)]]
  = Normal [JArr [JNum 5; JNum 6; JStr "x"]].
Proof. reflexivity. Qed.

(** A row with an own key [hasOwnProperty] makes normalisation, [update] and
    the constructor throw; [update] has by then assigned the data. *)
Example normalize_rows_shadowing_sample :
  normalize_rows sample_shadowing_rows
  = Throw (TypeError "row.hasOwnProperty is not a function") /\
  new_PhoenixChart BAR sample_shadowing_data None
  = Throw (TypeError "row.hasOwnProperty is not a function") /\
  exists s,
    new_PhoenixChart BAR sample_data None = Normal s /\
    snd (update sample_shadowing_data (Some (options_with_colors None)) s)
    = Throw (TypeError "row.hasOwnProperty is not a function") /\
    rows (_data (fst (update sample_shadowing_data
                        (Some (options_with_colors None)) s)))
    = sample_shadowing_rows /\
    _packet (fst (update sample_shadowing_data
                    (Some (options_with_colors None)) s))
    = _packet s.
Proof.
  split; [reflexivity|]. split; [reflexivity|].
  eexists. split; [vm_compute; reflexivity|].
  repeat split; vm_compute; reflexivity.
Qed.

(** The constructor copies a key of the options over the default whatever it
    holds: width [undefined] reaches the engine as [undefined], and animate
    [undefined] makes [render] skip the animation. *)
Example constructor_spreads_undefined :
  exists s,
    new_PhoenixChart BAR sample_data
      (Some {| height := None; width := Some JUndefined;
               animate := Some JUndefined; colors := None;
               properties := None |}) = Normal s /\
    nth 0 (_instance s) getCanvas
    = createPhoenixWithChartState (_packet s) "{}" JUndefined (JNum 400)
        true 0 /\
    _instance (fst (render s)) = (_instance s ++ [draw true false])%list.
Proof.
  eexists. split; [vm_compute; reflexivity|].
  split; vm_compute; reflexivity.
Qed.

(** Numbers are written the way [JSON.stringify] writes them. *)
Example Number_toString_samples :
  Number_toString 0 = "0" /\
  Number_toString (-12) = "-12" /\
  Number_toString (2 ^ 53) = "9007199254740992" /\
  Number_toString (2 ^ 60) = "1152921504606847000" /\
  Number_toString (10 ^ 21 - 1) = "1e+21" /\
  Number_toString (10 ^ 21) = "1e+21" /\
  Number_toString 123456789012345678901234567890
  = "1.2345678901234568e+29" /\
  SerializeJSONProperty (JNum (2 ^ 1024)) = Some "null".
Proof.
  repeat split; vm_compute; reflexivity.
Qed.

Example update_then_getPacket :
  exists s,
    new_PhoenixChart BAR sample_data None = Normal s /\
    snd (getPacket
           (fst (update sample_data
                   (Some (options_with_colors (Some sample_colors))) s)))
    = Normal (_packet
                (fst (update sample_data
                        (Some (options_with_colors (Some sample_colors))) s))) /\
    String_includes (QuoteJSONString "palette") (_packet s) = false /\
    String_includes (QuoteJSONString "palette")
      (_packet (fst (update sample_data
                       (Some (options_with_colors (Some sample_colors))) s)))
    = true.
Proof.
  eexists. split; [vm_compute; reflexivity|].
  repeat split; vm_compute; reflexivity.
Qed.

(** C2 as stated fails for an empty colour list: [[]] is not null, so the
    guard [if (options.colors)] passes and the document gets a palette, with
    no colours and the rule [{min: 1, max: 0, values: []}]. *)
Lemma empty_colors_get_a_palette :
  exists config,
    _toPhoenixConfig BAR sample_data (Some (options_with_colors (Some [])))
    = Normal config /\
    has_own "palette" config = true /\
    get_own "palette" config
    = JObj [
        ("colorRanges",
         JArr [JObj [("name", JStr "CustomPalette"); ("values", JArr [])]]);
        ("colorRules",
         JArr [JObj [("min", JNum 1); ("max", JNum 0); ("values", JArr [])]])
      ] /\
    ~ (exists c, colors (options_with_colors (Some [])) = Some c /\ c <> []).
Proof.
  eexists. split; [reflexivity|].
  split; [reflexivity|]. split; [reflexivity|].
  intros [c [Hc Hne]]. simpl in Hc. inversion Hc; subst. apply Hne. reflexivity.
Qed.

(** C3 on a map-kind session built with two colours: [resetColorPalette]
    sets [options.colors] to null and then throws inside [update]; the packet
    is the one the constructor left, which has a [palette] key, and nothing is
    pushed to the engine. *)
Theorem resetColorPalette_keeps_palette_and_throws :
  exists s config,
    new_PhoenixChart MAP_USA sample_data
      (Some (options_with_colors (Some sample_colors))) = Normal s /\
    _toPhoenixConfig MAP_USA (_data s) (Some (_options s)) = Normal config /\
    _packet s = JSON_stringify config /\
    has_own "palette" config = true /\
    snd (resetColorPalette s) = Throw (TypeError "options is undefined") /\
    colors (_options (fst (resetColorPalette s))) = None /\
    _packet (fst (resetColorPalette s)) = _packet s /\
    String_includes (QuoteJSONString "palette")
      (_packet (fst (resetColorPalette s))) = true /\
    _instance (fst (resetColorPalette s)) = _instance s.
Proof.
  eexists. eexists.
  split; [vm_compute; reflexivity|].
  split; [vm_compute; reflexivity|].
  rewrite resetColorPalette_throws.
  repeat split; vm_compute; reflexivity.
Qed.

(** C4 as stated fails on [[{b:2, a:1, c:3}, {a:5}]] with columns [a], [b]:
    the rows come out as [[2,1,3]] and [[5]], in the rows' own key order, the
    undeclared [c] kept and the missing [b] not marked, where column order
    asks for [[1,2]] and [[5, undefined]]. *)
Lemma normalize_rows_not_by_columns :
  rows_follow_columns sample_columns sample_unaligned_rows = false /\
  normalize_rows sample_unaligned_rows
  = Normal [JArr [JNum 2; JNum 1; JNum 3]; JArr [JNum 5]] /\
  rows_by_columns sample_columns sample_unaligned_rows
  = [JArr [JNum 1; JNum 2]; JArr [JNum 5; JUndefined]] /\
  ~ Forall (fun out => exists values,
              out = JArr values
              /\ List.length values = List.length sample_columns)
      [JArr [JNum 2; JNum 1; JNum 3]; JArr [JNum 5]].
Proof.
  split; [reflexivity|]. split; [reflexivity|]. split; [reflexivity|].
  intros Hall. inversion Hall as [|out rest Hhead Htail]; subst.
  destruct Hhead as [values [Hout Hlen]].
  inversion Hout; subst. simpl in Hlen. discriminate Hlen.
Qed.

Lemma normalize_rows_matches_columns_witness :
  distinct (map name sample_columns) = true /\
  no_column_named_hasOwnProperty sample_columns = true /\
  rows_follow_columns sample_columns sample_keyed_rows = true /\
  exists out,
    normalize_rows sample_keyed_rows = Normal out /\
    out = rows_by_columns sample_columns sample_keyed_rows /\
    Forall (fun row => exists values,
              row = JArr values
              /\ List.length values = List.length sample_columns)
      out.
Proof.
  split; [reflexivity|]. split; [reflexivity|]. split; [reflexivity|].
  apply (normalize_rows_matches_columns sample_columns sample_keyed_rows);
    reflexivity.
Defined.

(** C5 as stated fails on [[{b:1, 0:2}]]: the array-index key [0] is visited
    before [b] although it was inserted after it, so the row becomes [[2,1]]
    and not [[1,2]]. *)
Lemma normalize_rows_index_key_first :
  is_keyed_mapping (array_get sample_index_key_rows 0) = true /\
  normalize_rows sample_index_key_rows = Normal [JArr [JNum 2; JNum 1]] /\
  map (fun row => JArr (insertion_order_values row)) sample_index_key_rows
  = [JArr [JNum 1; JNum 2]] /\
  normalize_rows sample_index_key_rows
  <> Normal (map (fun row => JArr (insertion_order_values row))
               sample_index_key_rows).
Proof.
  split; [reflexivity|]. split; [reflexivity|]. split; [reflexivity|].
  intros Heq. vm_compute in Heq. discriminate Heq.
Qed.

Lemma normalize_rows_visiting_order_witness :
  is_keyed_mapping (array_get sample_year_rows 0) = true /\
  exists out,
    normalize_rows sample_year_rows = Normal out /\
    Forall2 emitted_from sample_year_rows out.
Proof.
  split; [reflexivity|].
  apply (normalize_rows_visiting_order sample_year_rows eq_refl).
Defined.

(** On the rows of the witness: the first row comes out in insertion order,
    the second with its indices first and ascending. *)
Example normalize_rows_year_sample :
  normalize_rows sample_year_rows
  = Normal [JArr [JNum 5; JNum 6; JStr "x"]; JArr [JNum 2; JNum 1; JStr "y"]] /\
  map inserted_in_visiting_order sample_year_rows = [true; false].
Proof.
  split; reflexivity.
Qed.

Lemma createPalette_colorRanges_values_witness :
  sample_colors <> [] /\
  exists values,
    prop "values" (elem 0 (prop "colorRanges" (_createPalette sample_colors)))
    = JArr values /\
    values = map (fun color => JStr (without_leading_char color)) sample_colors /\
    List.length values = List.length sample_colors /\
    forall i, i < List.length sample_colors ->
      nth i values JUndefined
      = JStr (without_leading_char (nth i sample_colors "")).
Proof.
  assert (Hne : sample_colors <> []) by (intros H; discriminate H).
  split; [exact Hne|].
  apply (createPalette_colorRanges_values sample_colors Hne).
Defined.

Lemma createPalette_colorRules_witness :
  sample_colors <> [] /\
  elem 0 (prop "colorRules" (_createPalette sample_colors))
  = JObj [("min", JNum 1); ("max", JNum 2);
          ("values", JArr [JArr [JNum 0; JNum 0]; JArr [JNum 0; JNum 1]])].
Proof.
  assert (Hne : sample_colors <> []) by (intros H; discriminate H).
  split; [exact Hne|].
  apply (proj1 (createPalette_colorRules sample_colors Hne)).
Defined.

Lemma normalize_rows_array_first_witness :
  Array_isArray (array_get sample_mixed_rows 0) = true /\
  normalize_rows sample_mixed_rows = Normal sample_mixed_rows.
Proof.
  split; [reflexivity|].
  apply (proj1 (normalize_rows_array_first sample_mixed_rows eq_refl)).
Defined.

(** * Further properties of the facade *)

(** ** Normalisation *)

(** X1: [transformData] throws on a keyed row that has [hasOwnProperty] as a
    key of its own; from any other keyed row it makes a sequence that is a
    rearrangement of the row's values, each kept exactly once, with as many
    entries as the row has keys. *)
Theorem own_values_rearranges (props : list (string * JsVal)) :
  if has_own "hasOwnProperty" props
  then own_values (JObj props)
       = Throw (TypeError "row.hasOwnProperty is not a function")
  else exists values,
         own_values (JObj props) = Normal values /\
         Permutation values (map snd props) /\
         List.length values = List.length props.
Proof.
  rewrite own_values_spec.
  change (shadows_hasOwnProperty (JObj props))
    with (has_own "hasOwnProperty" props).
  destruct (has_own "hasOwnProperty" props); [reflexivity|].
  assert (Hperm : Permutation (visited_values (JObj props)) (map snd props)).
  { simpl. apply Permutation_map. apply own_properties_in_order_perm. }
  eexists. split; [reflexivity|]. split; [exact Hperm|].
  rewrite (Permutation_length Hperm). apply length_map.
Qed.

(** X2: when normalisation completes it has neither added nor dropped a row,
    its result is empty or starts with an ordered sequence, and normalising
    the result again returns it unchanged; it throws only when the first row
    is no ordered sequence and some row has an own key [hasOwnProperty]. *)
Theorem normalize_rows_shape (input : list JsVal) :
  match normalize_rows input with
  | Normal out =>
      List.length out = List.length input /\
      (out = [] \/ Array_isArray (array_get out 0) = true) /\
      normalize_rows out = Normal out
  | Throw e =>
      e = TypeError "row.hasOwnProperty is not a function" /\
      Array_isArray (array_get input 0) = false /\
      existsb shadows_hasOwnProperty input = true
  end.
Proof.
  destruct (normalize_rows input) as [out|e] eqn:Hnorm.
  - split; [|split].
    + unfold normalize_rows in Hnorm.
      destruct (negb (Array_isArray (array_get input 0))).
      * rewrite transformData_spec in Hnorm.
        destruct (existsb shadows_hasOwnProperty input); [discriminate|].
        inversion Hnorm; subst. apply length_map.
      * inversion Hnorm; subst. reflexivity.
    + unfold normalize_rows in Hnorm.
      destruct (Array_isArray (array_get input 0)) eqn:Hfirst;
        cbn [negb] in Hnorm.
      * inversion Hnorm; subst. right. exact Hfirst.
      * rewrite transformData_spec in Hnorm.
        destruct (existsb shadows_hasOwnProperty input); [discriminate|].
        inversion Hnorm; subst.
        destruct input as [|r rest]; [left | right]; reflexivity.
    + apply (normalize_rows_idempotent input out Hnorm).
  - unfold normalize_rows in Hnorm.
    destruct (Array_isArray (array_get input 0)); cbn [negb] in Hnorm;
      [discriminate|].
    rewrite transformData_spec in Hnorm.
    destruct (existsb shadows_hasOwnProperty input); [|discriminate].
    inversion Hnorm; subst. repeat split; reflexivity.
Qed.

(** X3: when the first row is not an ordered sequence and normalisation
    completes, every row it returns is an ordered sequence, whatever the
    later rows were; it fails to complete only on a row with an own key
    [hasOwnProperty]. *)
Theorem normalize_rows_all_arrays (input : list JsVal) :
  Array_isArray (array_get input 0) = false ->
  match normalize_rows input with
  | Normal out => forallb Array_isArray out = true
  | Throw _ => existsb shadows_hasOwnProperty input = true
  end.
Proof.
  intros Hfirst. rewrite (normalize_rows_keyed_first input Hfirst).
  rewrite transformData_spec.
  destruct (existsb shadows_hasOwnProperty input); [reflexivity|].
  apply forallb_forall. intros out Hin.
  apply in_map_iff in Hin. destruct Hin as [row [<- _]]. reflexivity.
Qed.

Lemma normalize_rows_all_arrays_witness :
  Array_isArray (array_get sample_unaligned_rows 0) = false /\
  exists out,
    normalize_rows sample_unaligned_rows = Normal out /\
    forallb Array_isArray out = true.
Proof.
  split; [reflexivity|].
  eexists. split; [reflexivity|].
  apply (normalize_rows_all_arrays sample_unaligned_rows eq_refl).
Defined.

(** ** The builder *)

Section BuilderFacts.

Context `{CT : ChartTypes}.

(** X4: the document has no keys but these, in this order: [datasources],
    [components], [maps] for a map kind, [conditionalFormats], [locale],
    [version], and last [palette] when colours are set; [components] has the
    single key of the kind's class.  Nothing the literal set to null is
    left. *)
Theorem toPhoenixConfig_keys (t : PHOENIX_CHART_TYPE)
  (data : PhoenixChartData) (o : PhoenixChartOptions) :
  exists config,
    _toPhoenixConfig t data (Some o) = Normal config /\
    map fst config
    = (["datasources"; "components"]
       ++ (if _isMap t then ["maps"] else [])
       ++ ["conditionalFormats"; "locale"; "version"]
       ++ (match colors o with Some _ => ["palette"] | None => [] end))%list /\
    keys_in_order (get_own "components" config)
    = [if _isMap t then "map" else "graph"] /\
    get_own "conditionalFormats" config = JArr [] /\
    get_own "locale" config = JStr "en-US" /\
    get_own "version" config = JStr "6".
Proof.
  unfold _toPhoenixConfig.
  destruct (_isMap t) eqn:Hmap; destruct (colors o) as [c|];
    eexists; (split; [reflexivity|]); cbn; repeat split.
Qed.

(** X5: for a graph kind, without colours and without property overrides,
    the builder yields the very document of the earlier revision of the
    file, so the configuration string is the same too. *)
Theorem toPhoenixConfig_extends_earlier (t : PHOENIX_CHART_TYPE)
  (data : PhoenixChartData) (o : PhoenixChartOptions) :
  _isMap t = false ->
  colors o = None ->
  properties o = None ->
  _toPhoenixConfig t data (Some o) = Normal (Earlier._toPhoenixConfig t data) /\
  _createConfigString t data (Some o)
  = Normal (Earlier._createConfigString t data).
Proof.
  intros Hmap Hcolors Hprops.
  assert (Hdoc : _toPhoenixConfig t data (Some o)
                 = Normal (Earlier._toPhoenixConfig t data)).
  { unfold _toPhoenixConfig, Earlier._toPhoenixConfig.
    rewrite Hmap, Hcolors, Hprops. reflexivity. }
  split; [exact Hdoc|].
  unfold _createConfigString, Earlier._createConfigString.
  rewrite Hdoc. reflexivity.
Qed.

End BuilderFacts.

Lemma toPhoenixConfig_extends_earlier_witness :
  _isMap BAR = false /\
  colors (options_with_colors None) = None /\
  properties (options_with_colors None) = None /\
  _createConfigString BAR sample_data (Some (options_with_colors None))
  = Normal (Earlier._createConfigString BAR sample_data).
Proof.
  split; [reflexivity|]. split; [reflexivity|]. split; [reflexivity|].
  apply (proj2 (toPhoenixConfig_extends_earlier
                  (CT := sample_chart_types) BAR sample_data
                  (options_with_colors None) eq_refl eq_refl eq_refl)).
Defined.

(** ** Sessions *)

Lemma normalize_rows_normal_shape (input out : list JsVal) :
  normalize_rows input = Normal out ->
  List.length out = List.length input /\
  (out = [] \/ Array_isArray (array_get out 0) = true).
Proof.
  unfold normalize_rows.
  destruct (Array_isArray (array_get input 0)) eqn:Hfirst; cbn [negb].
  - intros Heq. inversion Heq; subst. split; [reflexivity | right; exact Hfirst].
  - rewrite transformData_spec.
    destruct (existsb shadows_hasOwnProperty input); [discriminate|].
    intros Heq. inversion Heq; subst. split; [apply length_map|].
    destruct input as [|r rest]; [left | right]; reflexivity.
Qed.

Lemma normalize_throw_shadow (data : PhoenixChartData) (e : JsError) :
  normalize data = Throw e ->
  existsb shadows_hasOwnProperty (rows data) = true.
Proof.
  unfold normalize.
  destruct (negb (Array_isArray (array_get (rows data) 0))); [|discriminate].
  rewrite transformData_spec.
  destruct (existsb shadows_hasOwnProperty (rows data));
    [reflexivity | discriminate].
Qed.

Section CallFacts.

Context `{CT : ChartTypes}.

(** A session that the constructor returned. *)
Lemma new_PhoenixChart_live (t : PHOENIX_CHART_TYPE)
  (data : PhoenixChartData) (options : option PhoenixChartOptions)
  (s : PhoenixChart) :
  new_PhoenixChart t data options = Normal s ->
  exists normalized configString,
    normalize data = Normal normalized /\
    _createConfigString t normalized
      (Some (spread_over_defaults options)) = Normal configString /\
    s = {| _type := t;
           _data := normalized;
           _options := spread_over_defaults options;
           _instance :=
             [createPhoenixWithChartState configString "{}"
                (read (width (spread_over_defaults options)))
                (read (height (spread_over_defaults options))) true 0%Z;
              setUsePhoenixHover true; getCanvas];
           _packet := configString |}.
Proof.
  intros Hnew.
  destruct (normalize data) as [normalized|e] eqn:Hnorm.
  - destruct (new_PhoenixChart_completing t data normalized options Hnorm)
      as [cs [Hcs Hrec]].
    rewrite Hrec in Hnew. inversion Hnew; subst.
    exists normalized, cs. repeat split; assumption.
  - rewrite (new_PhoenixChart_throwing t data e options Hnorm) in Hnew.
    discriminate Hnew.
Qed.

Lemma new_PhoenixChart_total (t : PHOENIX_CHART_TYPE)
  (data : PhoenixChartData) (options : option PhoenixChartOptions)
  (normalized : PhoenixChartData) :
  normalize data = Normal normalized ->
  exists s, new_PhoenixChart t data options = Normal s /\ _type s = t.
Proof.
  intros Hnorm.
  destruct (new_PhoenixChart_completing t data normalized options Hnorm)
    as [cs [_ Hnew]].
  eexists. split; [exact Hnew | reflexivity].
Qed.

(** What holds of a session and is kept by every call holds after any
    sequence of calls. *)
Lemma run_calls_invariant (Inv : PhoenixChart -> Prop) :
  (forall c s, Inv s -> Inv (run_call c s)) ->
  forall cs s, Inv s -> Inv (run_calls cs s).
Proof.
  intros Hstep cs. unfold run_calls.
  induction cs as [|c cs IH]; intros s Hs; simpl.
  - exact Hs.
  - apply IH. apply Hstep. exact Hs.
Qed.

Lemma run_calls_invariant_on (allowed : Call -> bool)
  (Inv : PhoenixChart -> Prop) :
  (forall c s, allowed c = true -> Inv s -> Inv (run_call c s)) ->
  forall cs s, forallb allowed cs = true -> Inv s -> Inv (run_calls cs s).
Proof.
  intros Hstep cs. unfold run_calls.
  induction cs as [|c cs IH]; intros s Hall Hs; simpl in *.
  - exact Hs.
  - apply andb_true_iff in Hall. destruct Hall as [Hc Hcs].
    apply IH; [exact Hcs|]. apply Hstep; assumption.
Qed.

(** An [update] with options leaves one of two sessions. *)
Lemma update_cases (data : PhoenixChartData) (o : PhoenixChartOptions)
  (this : PhoenixChart) :
  (exists normalized configString,
      normalize data = Normal normalized /\
      _createConfigString (_type this) normalized
        (Some (merge_overrides o (_options this))) = Normal configString /\
      update data (Some o) this
      = ({| _type := _type this;
            _data := normalized;
            _options := merge_overrides o (_options this);
            _instance :=
              (_instance this
               ++ [updateChartJson configString
                     (not_animate (merge_overrides o (_options this)))])%list;
            _packet := configString |},
         Normal tt))
  \/
  (exists e,
      normalize data = Throw e /\
      update data (Some o) this
      = ({| _type := _type this;
            _data := data;
            _options := merge_overrides o (_options this);
            _instance := _instance this;
            _packet := _packet this |},
         Throw e)).
Proof.
  destruct (normalize data) as [normalized|e] eqn:Hnorm.
  - left. destruct (update_completing data normalized o this Hnorm)
      as [cs [Hcs Hup]].
    exists normalized, cs. repeat split; assumption.
  - right. exists e. split; [reflexivity|].
    apply update_throwing. exact Hnorm.
Qed.

(** Splits a goal about [run_call c s] into the methods, [update] taken
    without options, completing, and throwing while it normalises. *)
Ltac by_call c s :=
  destruct c as [ | w h | call_data [call_options|] | p | | ];
  cbn [run_call];
  [ | | destruct (update_cases call_data call_options s)
          as [[normalized [configString [Hnorm [Hconfig ->]]]]
             | [thrown [Hnorm ->]]];
        cbn [fst]
  | | | | ].

Lemma not_animate_merge (o current : PhoenixChartOptions) :
  not_animate (merge_overrides o current) = not_animate current.
Proof.
  unfold not_animate.
  destruct (merge_overrides_frame o current) as [_ [_ [-> _]]].
  reflexivity.
Qed.

Lemma last_config_snoc (log : list PhoenixCall) (c : PhoenixCall)
  (seen : option string) :
  last_config (log ++ [c]) seen
  = match c with
    | createPhoenixWithChartState configString _ _ _ _ _ => Some configString
    | updateChartJson configString _ => Some configString
    | _ => last_config log seen
    end.
Proof.
  revert seen. induction log as [|d log IH]; intros seen; simpl.
  - destruct c; reflexivity.
  - destruct d; apply IH.
Qed.


(** X7: no sequence of calls changes the chart type, the height, the width
    or the animate flag of a session: [update] takes only colours and
    property overrides from its options, and [resize] does not record the
    new size. *)
Theorem calls_keep_type_and_flags (cs : list Call) (s : PhoenixChart) :
  _type (run_calls cs s) = _type s /\
  height (_options (run_calls cs s)) = height (_options s) /\
  width (_options (run_calls cs s)) = width (_options s) /\
  animate (_options (run_calls cs s)) = animate (_options s).
Proof.
  apply (run_calls_invariant
           (fun s' => _type s' = _type s /\
                      height (_options s') = height (_options s) /\
                      width (_options s') = width (_options s) /\
                      animate (_options s') = animate (_options s)));
    [|repeat split].
  intros c s' Hs'. by_call c s'; try exact Hs';
    cbn [_type _options];
    destruct (merge_overrides_frame call_options (_options s'))
      as [Hh [Hw [Ha _]]];
    rewrite Hh, Hw, Ha; exact Hs'.
Qed.

(** X8: the calls made on the engine are never retracted: after any sequence
    of calls the log is the earlier log followed by at most one engine call
    per method call. *)
Theorem calls_extend_engine_log (cs : list Call) (s : PhoenixChart) :
  exists more,
    _instance (run_calls cs s) = (_instance s ++ more)%list /\
    List.length more <= List.length cs.
Proof.
  revert s. unfold run_calls.
  induction cs as [|c cs IH]; intros s; simpl.
  - exists []. split; [symmetry; apply app_nil_r | apply Nat.le_refl].
  - destruct (IH (run_call c s)) as [more [Hlog Hlen]].
    assert (Hstep : exists one,
               _instance (run_call c s) = (_instance s ++ one)%list
               /\ List.length one <= 1).
    { by_call c s;
        try (exists []; split; [symmetry; apply app_nil_r | auto]; fail);
        try (eexists [_]; split; [reflexivity | auto]; fail). }
    destruct Hstep as [one [Hone Hlen1]].
    exists (one ++ more)%list. split.
    + rewrite Hlog, Hone. symmetry. apply app_assoc.
    + rewrite length_app. simpl. lia.
Qed.

(** X9: on a session that the constructor returned, whatever is called
    afterwards, calls that throw included, [getPacket()] answers the
    configuration string most recently handed to the engine. *)
Theorem packet_is_last_config_pushed (t : PHOENIX_CHART_TYPE)
  (data : PhoenixChartData) (options : option PhoenixChartOptions)
  (s : PhoenixChart) (cs : list Call) :
  new_PhoenixChart t data options = Normal s ->
  last_config (_instance (run_calls cs s)) None
  = Some (_packet (run_calls cs s)) /\
  snd (getPacket (run_calls cs s)) = Normal (_packet (run_calls cs s)).
Proof.
  intros Hnew.
  destruct (new_PhoenixChart_live t data options s Hnew)
    as [normalized0 [cfg0 [_ [_ ->]]]].
  split; [|reflexivity].
  apply (run_calls_invariant
           (fun s' => last_config (_instance s') None = Some (_packet s')));
    [|reflexivity].
  intros c s' Hs'. by_call c s'; try exact Hs'.
  - cbn [render assign fst invoke _instance _packet].
    rewrite last_config_snoc. exact Hs'.
  - cbn [resize assign fst invoke _instance _packet].
    rewrite last_config_snoc. exact Hs'.
  - cbn [_instance _packet]. rewrite last_config_snoc. reflexivity.
Qed.

(** X10: on a session that the constructor returned, after any sequence of
    calls the rows held are empty or start with an ordered sequence, unless
    they are the rows of an [update] that threw while normalising, which
    have a row with an own key [hasOwnProperty]. *)
Theorem session_rows_stay_normalized (t : PHOENIX_CHART_TYPE)
  (data : PhoenixChartData) (options : option PhoenixChartOptions)
  (s : PhoenixChart) (cs : list Call) :
  new_PhoenixChart t data options = Normal s ->
  rows (_data (run_calls cs s)) = []
  \/ Array_isArray (array_get (rows (_data (run_calls cs s))) 0) = true
  \/ existsb shadows_hasOwnProperty (rows (_data (run_calls cs s))) = true.
Proof.
  intros Hnew.
  assert (Hshape : forall d normalized,
             normalize d = Normal normalized ->
             rows normalized = []
             \/ Array_isArray (array_get (rows normalized) 0) = true
             \/ existsb shadows_hasOwnProperty (rows normalized) = true).
  { intros d normalized Hnorm.
    destruct (normalize_columns d normalized Hnorm) as [_ Hrows].
    destruct (normalize_rows_normal_shape _ _ Hrows) as [_ [He | Ha]];
      [left; exact He | right; left; exact Ha]. }
  destruct (new_PhoenixChart_live t data options s Hnew)
    as [normalized0 [cfg0 [Hnorm0 [_ ->]]]].
  apply (run_calls_invariant
           (fun s' =>
              rows (_data s') = []
              \/ Array_isArray (array_get (rows (_data s')) 0) = true
              \/ existsb shadows_hasOwnProperty (rows (_data s')) = true));
    [|apply (Hshape data); exact Hnorm0].
  intros c s' Hs'. by_call c s'; try exact Hs'; cbn [_data].
  - apply (Hshape call_data). exact Hnorm.
  - right. right. apply (normalize_throw_shadow call_data thrown). exact Hnorm.
Qed.

(** X11: on a session that the constructor returned, as long as only
    [render], [resize], [getPacket] and [update] are called, and no [update]
    with options is given rows that make normalisation throw, the packet is
    the configuration string of the session's current data and options. *)
Theorem plain_calls_keep_packet_current (t : PHOENIX_CHART_TYPE)
  (data : PhoenixChartData) (options : option PhoenixChartOptions)
  (s : PhoenixChart) (cs : list Call) :
  new_PhoenixChart t data options = Normal s ->
  forallb is_plain_call cs = true ->
  _createConfigString (_type (run_calls cs s)) (_data (run_calls cs s))
    (Some (_options (run_calls cs s)))
  = Normal (_packet (run_calls cs s)).
Proof.
  intros Hnew Hplain.
  destruct (new_PhoenixChart_live t data options s Hnew)
    as [normalized0 [cfg0 [_ [Hcfg0 ->]]]].
  apply (run_calls_invariant_on is_plain_call
           (fun s' => _createConfigString (_type s') (_data s')
                        (Some (_options s')) = Normal (_packet s')));
    [|exact Hplain|exact Hcfg0].
  intros c s' Hc Hs'. by_call c s'; try exact Hs'; try discriminate Hc.
  - cbn [_type _data _options _packet]. exact Hconfig.
  - cbn [is_plain_call] in Hc. unfold transformable in Hc.
    rewrite Hnorm in Hc. discriminate Hc.
Qed.

End CallFacts.

Section UpdateFacts.

Context `{CT : ChartTypes}.

Lemma toPhoenixConfig_without_colors (t : PHOENIX_CHART_TYPE)
  (data : PhoenixChartData) (o : PhoenixChartOptions) :
  colors o = None ->
  exists config,
    _toPhoenixConfig t data (Some o) = Normal config /\
    has_own "palette" config = false.
Proof.
  intros Hcolors. unfold _toPhoenixConfig. rewrite Hcolors.
  destruct (_isMap t); eexists; split; reflexivity.
Qed.

Lemma toPhoenixConfig_overrides (t : PHOENIX_CHART_TYPE)
  (data : PhoenixChartData) (o : PhoenixChartOptions)
  (config : PhoenixChartConfig) :
  _toPhoenixConfig t data (Some o) = Normal config ->
  prop "overrides"
    (prop (if _isMap t then "map" else "graph") (get_own "components" config))
  = JObj match properties o with Some p => p | None => [] end.
Proof.
  unfold _toPhoenixConfig. intros Hdoc. inversion Hdoc; subst. clear Hdoc.
  destruct (_isMap t); destruct (colors o); destruct (properties o);
    reflexivity.
Qed.

Lemma toPhoenixConfig_data_block (t : PHOENIX_CHART_TYPE)
  (data : PhoenixChartData) (o : PhoenixChartOptions)
  (config : PhoenixChartConfig) :
  _toPhoenixConfig t data (Some o) = Normal config ->
  prop "data" (prop "default" (get_own "datasources" config))
  = JObj [
      ("datasource", JStr "default");
      ("metadata",
       JArr (map (fun col => JObj [("type", type col)]) (columns data)));
      ("mappings", JArr (map (fun col => JStr (mapping col)) (columns data)));
      ("columns", JArr (map (fun col => JStr (name col)) (columns data)));
      ("rows", JArr (rows data));
      ("numRows", JNum (Z.of_nat (List.length (rows data))));
      ("numColumns", JNum (Z.of_nat (List.length (columns data))))
    ].
Proof.
  unfold _toPhoenixConfig. intros Hdoc. inversion Hdoc; subst. clear Hdoc.
  destruct (_isMap t); destruct (colors o); reflexivity.
Qed.

(** X12: when the rows can be normalised, [update] with options completes
    normally; the packet it leaves is the text of the document for the
    normalised data, whose [rows] are the normalised rows and whose [numRows]
    and [numColumns] count the rows and the columns the caller passed; that
    packet is pushed to the engine in one [updateChartJson] call, animation
    skipped exactly when [animate] is falsy.  When normalising throws,
    [update] throws the same error, holds the data as given, keeps the old
    packet and calls nothing on the engine. *)
Theorem update_builds_and_pushes (data : PhoenixChartData)
  (o : PhoenixChartOptions) (this : PhoenixChart) :
  match normalize data with
  | Normal normalized =>
      exists config,
        snd (update data (Some o) this) = Normal tt /\
        _data (fst (update data (Some o) this)) = normalized /\
        normalize_rows (rows data) = Normal (rows normalized) /\
        _toPhoenixConfig (_type this) normalized
          (Some (_options (fst (update data (Some o) this)))) = Normal config /\
        _packet (fst (update data (Some o) this)) = JSON_stringify config /\
        prop "rows"
          (prop "data" (prop "default" (get_own "datasources" config)))
        = JArr (rows normalized) /\
        prop "numRows"
          (prop "data" (prop "default" (get_own "datasources" config)))
        = JNum (Z.of_nat (List.length (rows data))) /\
        prop "numColumns"
          (prop "data" (prop "default" (get_own "datasources" config)))
        = JNum (Z.of_nat (List.length (columns data))) /\
        _instance (fst (update data (Some o) this))
        = (_instance this
           ++ [updateChartJson (JSON_stringify config)
                 (not_animate (_options this))])%list
  | Throw e =>
      snd (update data (Some o) this) = Throw e /\
      _data (fst (update data (Some o) this)) = data /\
      _packet (fst (update data (Some o) this)) = _packet this /\
      _instance (fst (update data (Some o) this)) = _instance this
  end.
Proof.
  destruct (normalize data) as [normalized|e] eqn:Hnorm.
  - destruct (update_completing data normalized o this Hnorm)
      as [cs [Hcs ->]].
    cbn [fst snd _type _data _options _instance _packet].
    destruct (createConfigString_of_config _ _ _ _ Hcs) as [config [Hdoc ->]].
    exists config.
    rewrite (toPhoenixConfig_data_block _ _ _ _ Hdoc).
    cbn [prop get_own String.eqb Ascii.eqb Bool.eqb].
    destruct (normalize_columns data normalized Hnorm) as [Hcols Hrows].
    destruct (normalize_rows_normal_shape _ _ Hrows) as [Hlen _].
    rewrite Hcols, Hlen, not_animate_merge.
    repeat split; try reflexivity; assumption.
  - rewrite (update_throwing data e o this Hnorm).
    repeat split; reflexivity.
Qed.

(** X13: [update] takes colours and property overrides from its options only
    when they are set: options without colours leave the session's colours as
    they are, so no [update] ever clears a palette, and likewise for the
    overrides. *)
Theorem update_options_are_sticky (data : PhoenixChartData)
  (o : PhoenixChartOptions) (this : PhoenixChart) :
  colors (_options (fst (update data (Some o) this)))
  = match colors o with
    | Some c => Some c
    | None => colors (_options this)
    end /\
  properties (_options (fst (update data (Some o) this)))
  = match properties o with
    | Some p => Some p
    | None => properties (_options this)
    end.
Proof.
  destruct (merge_overrides_frame o (_options this))
    as [_ [_ [_ [Hc Hp]]]].
  destruct (update_cases data o this)
    as [[normalized [cs [_ [_ ->]]]] | [e [_ ->]]];
    cbn [fst _options]; rewrite Hc, Hp; split; reflexivity.
Qed.

(** X14: although [resetColorPalette] throws, the null it wrote stays: when
    the next [update] has options without colours and rows that can be
    normalised, it builds and keeps a document without a [palette] key; when
    normalising throws, that [update] throws too and the packet stays the
    old one. *)
Theorem reset_then_update_drops_palette (data : PhoenixChartData)
  (o : PhoenixChartOptions) (this : PhoenixChart) :
  colors o = None ->
  match normalize data with
  | Normal normalized =>
      exists config,
        _toPhoenixConfig (_type this) normalized
          (Some (_options
                   (fst (update data (Some o) (fst (resetColorPalette this))))))
        = Normal config /\
        _packet (fst (update data (Some o) (fst (resetColorPalette this))))
        = JSON_stringify config /\
        has_own "palette" config = false
  | Throw e =>
      snd (update data (Some o) (fst (resetColorPalette this))) = Throw e /\
      _packet (fst (update data (Some o) (fst (resetColorPalette this))))
      = _packet this
  end.
Proof.
  intros Hcolors. rewrite resetColorPalette_throws. cbn [fst].
  destruct (normalize data) as [normalized|e] eqn:Hnorm.
  - destruct (update_completing data normalized o
                (set__options (with_colors None (_options this)) this) Hnorm)
      as [cs [Hcs ->]].
    cbn [fst _type _data _options _packet set__options] in *.
    destruct (createConfigString_of_config _ _ _ _ Hcs) as [config [Hdoc ->]].
    exists config. split; [exact Hdoc|]. split; [reflexivity|].
    destruct (toPhoenixConfig_without_colors (_type this) normalized
                (merge_overrides o (with_colors None (_options this))))
      as [config' [Hdoc' Hnone]].
    + destruct (merge_overrides_frame o (with_colors None (_options this)))
        as [_ [_ [_ [-> _]]]].
      rewrite Hcolors. reflexivity.
    + congruence.
  - rewrite (update_throwing data e o _ Hnorm). split; reflexivity.
Qed.

(** X15: although [setChartProperties] throws, the overrides it wrote stay:
    when the next [update] has options without overrides and rows that can
    be normalised, it builds a document whose component has them as
    [overrides]; when normalising throws, that [update] throws too and the
    packet stays the old one. *)
Theorem setChartProperties_then_update_applies (p : PropertyOverridesMap)
  (data : PhoenixChartData) (o : PhoenixChartOptions) (this : PhoenixChart) :
  properties o = None ->
  match normalize data with
  | Normal normalized =>
      exists config,
        _toPhoenixConfig (_type this) normalized
          (Some (_options
                   (fst (update data (Some o)
                           (fst (setChartProperties p this))))))
        = Normal config /\
        _packet (fst (update data (Some o) (fst (setChartProperties p this))))
        = JSON_stringify config /\
        prop "overrides"
          (prop (if _isMap (_type this) then "map" else "graph")
             (get_own "components" config))
        = JObj p
  | Throw e =>
      snd (update data (Some o) (fst (setChartProperties p this))) = Throw e /\
      _packet (fst (update data (Some o) (fst (setChartProperties p this))))
      = _packet this
  end.
Proof.
  intros Hprops. rewrite setChartProperties_throws. cbn [fst].
  destruct (normalize data) as [normalized|e] eqn:Hnorm.
  - destruct (update_completing data normalized o
                (set__options (with_properties (Some p) (_options this)) this)
                Hnorm) as [cs [Hcs ->]].
    cbn [fst _type _data _options _packet set__options] in *.
    destruct (createConfigString_of_config _ _ _ _ Hcs) as [config [Hdoc ->]].
    exists config. split; [exact Hdoc|]. split; [reflexivity|].
    rewrite (toPhoenixConfig_overrides _ _ _ _ Hdoc).
    destruct (merge_overrides_frame o
                (with_properties (Some p) (_options this)))
      as [_ [_ [_ [_ ->]]]].
    rewrite Hprops. reflexivity.
  - rewrite (update_throwing data e o _ Hnorm). split; reflexivity.
Qed.

(** X16: [setChartProperties] fails for every session, after it has written
    the overrides into the options: it throws, [options.properties] is the
    argument, and the data, the packet, the colours and the engine are as
    before, so the chart is not redrawn. *)
Theorem setChartProperties_fails_after_assigning (p : PropertyOverridesMap)
  (this : PhoenixChart) :
  snd (setChartProperties p this) = Throw (TypeError "options is undefined") /\
  properties (_options (fst (setChartProperties p this))) = Some p /\
  colors (_options (fst (setChartProperties p this))) = colors (_options this) /\
  _data (fst (setChartProperties p this)) = _data this /\
  _packet (fst (setChartProperties p this)) = _packet this /\
  _instance (fst (setChartProperties p this)) = _instance this.
Proof.
  rewrite setChartProperties_throws. repeat split; reflexivity.
Qed.

(** X17: on a session that the constructor returned, [render] completes
    normally with one [draw(null, skip, false)] call, however many calls
    came in between; [skip] is the negation of what the constructor's
    options hold under [animate], whatever that is, and of the default
    [true] when they have no such key.  It changes neither the packet nor
    the data. *)
Theorem render_follows_constructor_animate (t : PHOENIX_CHART_TYPE)
  (data : PhoenixChartData) (options : option PhoenixChartOptions)
  (s : PhoenixChart) (cs : list Call) :
  new_PhoenixChart t data options = Normal s ->
  render (run_calls cs s)
  = (invoke (draw (negb (ToBoolean
                           match options with
                           | Some o => match animate o with
                                       | Some v => v
                                       | None => JBool true
                                       end
                           | None => JBool true
                           end)) false) (run_calls cs s),
     Normal tt) /\
  _packet (fst (render (run_calls cs s))) = _packet (run_calls cs s) /\
  _data (fst (render (run_calls cs s))) = _data (run_calls cs s).
Proof.
  intros Hnew.
  destruct (new_PhoenixChart_live t data options s Hnew)
    as [normalized0 [cfg0 [_ [_ Hs]]]].
  assert (Hanim : animate (_options (run_calls cs s)) = animate (_options s)).
  { apply (run_calls_invariant
             (fun s' => animate (_options s') = animate (_options s)));
      [|reflexivity].
    intros c s' Hs'.
    destruct c as [ | w h | call_data [call_options|] | q | | ];
      cbn [run_call]; try exact Hs'.
    destruct (merge_overrides_frame call_options (_options s'))
      as [_ [_ [Ha _]]].
    destruct (update_cases call_data call_options s')
      as [[normalized [cs' [_ [_ ->]]]] | [e [_ ->]]];
      cbn [fst _options]; rewrite Ha; exact Hs'. }
  split; [|split; reflexivity].
  unfold render, assign. f_equal. f_equal. f_equal.
  unfold not_animate. rewrite Hanim. subst s. cbn [_options].
  destruct options as [o|]; [|reflexivity].
  cbn [spread_over_defaults animate]. destruct (animate o); reflexivity.
Qed.

End UpdateFacts.

(** *** The further properties on the sample inputs *)

Lemma packet_is_last_config_pushed_witness :
  exists s,
    new_PhoenixChart MAP_USA sample_data None = Normal s /\
    last_config (_instance (run_calls sample_failing_calls s)) None
    = Some (_packet (run_calls sample_failing_calls s)).
Proof.
  destruct (new_PhoenixChart_total (CT := sample_chart_types) MAP_USA
              sample_data None _ eq_refl) as [s [Hs Ht]].
  exists s. split; [exact Hs|].
  apply (proj1 (packet_is_last_config_pushed (CT := sample_chart_types)
                  MAP_USA sample_data None s sample_failing_calls Hs)).
Defined.

Lemma session_rows_stay_normalized_witness :
  exists s,
    new_PhoenixChart BAR sample_data None = Normal s /\
    (rows (_data (run_calls sample_failing_calls s)) = []
     \/ Array_isArray
          (array_get (rows (_data (run_calls sample_failing_calls s))) 0)
        = true
     \/ existsb shadows_hasOwnProperty
          (rows (_data (run_calls sample_failing_calls s))) = true).
Proof.
  destruct (new_PhoenixChart_total (CT := sample_chart_types) BAR
              sample_data None _ eq_refl) as [s [Hs Ht]].
  exists s. split; [exact Hs|].
  apply (session_rows_stay_normalized (CT := sample_chart_types)
           BAR sample_data None s sample_failing_calls Hs).
Defined.

Lemma plain_calls_keep_packet_current_witness :
  forallb is_plain_call sample_plain_calls = true /\
  exists s,
    new_PhoenixChart MAP_USA sample_data None = Normal s /\
    _createConfigString
      (_type (run_calls sample_plain_calls s))
      (_data (run_calls sample_plain_calls s))
      (Some (_options (run_calls sample_plain_calls s)))
    = Normal (_packet (run_calls sample_plain_calls s)).
Proof.
  split; [reflexivity|].
  destruct (new_PhoenixChart_total (CT := sample_chart_types) MAP_USA
              sample_data None _ eq_refl) as [s [Hs Ht]].
  exists s. split; [exact Hs|].
  apply (plain_calls_keep_packet_current (CT := sample_chart_types)
           MAP_USA sample_data None s sample_plain_calls Hs eq_refl).
Defined.

Lemma reset_then_update_drops_palette_witness :
  colors (options_with_colors None) = None /\
  exists s config,
    new_PhoenixChart MAP_USA sample_data
      (Some (options_with_colors (Some sample_colors))) = Normal s /\
    _packet (fst (update sample_data (Some (options_with_colors None))
                    (fst (resetColorPalette s))))
    = JSON_stringify config /\
    has_own "palette" config = false.
Proof.
  split; [reflexivity|].
  destruct (new_PhoenixChart_total (CT := sample_chart_types) MAP_USA
              sample_data (Some (options_with_colors (Some sample_colors)))
              _ eq_refl) as [s [Hs Ht]].
  destruct (reset_then_update_drops_palette (CT := sample_chart_types)
              sample_data (options_with_colors None) s eq_refl)
    as [config [_ [Hpacket Hnone]]].
  exists s, config. split; [exact Hs|]. split; [exact Hpacket | exact Hnone].
Defined.

Lemma setChartProperties_then_update_applies_witness :
  properties (options_with_colors None) = None /\
  exists s config,
    new_PhoenixChart BAR sample_data None = Normal s /\
    _type s = BAR /\
    _packet (fst (update sample_data (Some (options_with_colors None))
                    (fst (setChartProperties [("hide_legend", JStr "true")] s))))
    = JSON_stringify config /\
    prop "overrides"
      (prop (if _isMap (_type s) then "map" else "graph")
         (get_own "components" config))
    = JObj [("hide_legend", JStr "true")].
Proof.
  split; [reflexivity|].
  destruct (new_PhoenixChart_total (CT := sample_chart_types) BAR
              sample_data None _ eq_refl) as [s [Hs Ht]].
  destruct (setChartProperties_then_update_applies (CT := sample_chart_types)
              [("hide_legend", JStr "true")] sample_data
              (options_with_colors None) s eq_refl)
    as [config [_ [Hpacket Hover]]].
  exists s, config. split; [exact Hs|].
  split; [exact Ht|]. split; [exact Hpacket | exact Hover].
Defined.

Lemma render_follows_constructor_animate_witness :
  exists s,
    new_PhoenixChart BAR sample_data
      (Some {| height := None; width := None; animate := Some JUndefined;
               colors := None; properties := None |}) = Normal s /\
    render (run_calls [Update sample_data (Some (options_with_colors None))] s)
    = (invoke (draw true false)
         (run_calls [Update sample_data (Some (options_with_colors None))] s),
       Normal tt).
Proof.
  destruct (new_PhoenixChart_total (CT := sample_chart_types) BAR sample_data
              (Some {| height := None; width := None;
                       animate := Some JUndefined;
                       colors := None; properties := None |})
              _ eq_refl) as [s [Hs Ht]].
  exists s. split; [exact Hs|].
  apply (proj1 (render_follows_constructor_animate (CT := sample_chart_types)
                  BAR sample_data _ s _ Hs)).
Defined.
